(** * Simple-Task-List: the TaskManager of SIMPLE_TASK_LIST.py

    A shallow embedding of the task manager and of the parts of pandas,
    scikit-learn and the Python library that its methods call, followed by
    the properties of the methods.

    Scope of the embedding.
    - A cell of the task table is a Python [str] or the missing value NaN.
      Numbers and booleans, which [pd.read_csv] produces when a column (or,
      in a long file, a stretch of a column) looks numeric or boolean, are
      not represented: [read_csv] answers [Uncovered] on a file with a
      field that could be read as one, and on a file that is not a plain
      rectangle under a header of distinct, non-empty names.
    - tasks.csv is kept as the parser tokenizes it: a header and records of
      text fields.  The quoting that [to_csv] applies to delimiters and quote
      marks, and that the parser undoes, is not modelled; a field with a
      control character (a line break among them) or a character outside
      ASCII does not survive as one token in every case, and [read_csv]
      answers [Uncovered] on a file that has one.
    - The scikit-learn pipeline is a parameter ([Classifier]): whether
      fitting succeeds on given training columns, and which label a fitted
      pipeline gives a text.  A fitted pipeline is identified with the
      training columns it was fitted on.
    - [random.choice] draws from a stream of naturals that is a parameter.
    - Strings are byte strings; [capitalize] maps the ASCII letters only. *)

From Stdlib Require Import List String Ascii Bool Arith Lia.
From Stdlib Require Import Permutation Sorted.
Import ListNotations.
Open Scope string_scope.
Open Scope list_scope.

(** ** pandas *)
Module Pandas.

(** A cell: a [str] object or NaN. *)
Inductive value : Type :=
| VStr (s : string)
| VNaN.

Definition value_eqb (a b : value) : bool :=
  match a, b with
  | VStr s, VStr t => String.eqb s t
  | VNaN, VNaN => true
  | _, _ => false
  end.

(** [v == s] and [v != s] between a cell and a [str]: NaN equals nothing. *)
Definition py_eq (v : value) (s : string) : bool :=
  match v with
  | VStr t => String.eqb t s
  | VNaN => false
  end.

Definition py_ne (v : value) (s : string) : bool := negb (py_eq v s).

(** What [str(v)] gives inside an f-string. *)
Definition py_str (v : value) : string :=
  match v with
  | VStr s => s
  | VNaN => "nan"
  end.

(** A frame: column names, and the rows in order, each under its index
    label.  A Series is one column with the same labels. *)
Record DataFrame : Type := {
  columns : list string;
  rows : list (nat * list value)
}.

Definition Series : Type := list (nat * value).

Definition values {A : Type} (s : list (nat * A)) : list A := map snd s.

(** [pd.DataFrame(columns=cols)] *)
Definition DataFrame_of_columns (cols : list string) : DataFrame :=
  {| columns := cols; rows := [] |}.

(** [pd.DataFrame({'description': [d], 'priority': [p]})] *)
Definition DataFrame_of_task (d p : string) : DataFrame :=
  {| columns := ["description"; "priority"];
     rows := [(0, [VStr d; VStr p])] |}.

(** Position of a column name ([Index.get_loc]); [None] is KeyError. *)
Fixpoint get_loc (name : string) (cols : list string) : option nat :=
  match cols with
  | [] => None
  | c :: cs =>
      if String.eqb c name then Some 0
      else option_map S (get_loc name cs)
  end.

(** The cell of a row under a column name, NaN where the row has none. *)
Definition cell (cols : list string) (r : list value) (name : string) : value :=
  match get_loc name cols with
  | Some j => nth j r VNaN
  | None => VNaN
  end.

(** [df[name]]; [None] is KeyError. *)
Definition getitem (df : DataFrame) (name : string) : option Series :=
  match get_loc name (columns df) with
  | Some j => Some (map (fun r => (fst r, nth j (snd r) VNaN)) (rows df))
  | None => None
  end.

(** [series != s] and [series == s], elementwise. *)
Definition series_ne (s : Series) (x : string) : list (nat * bool) :=
  map (fun e => (fst e, py_ne (snd e) x)) s.

Definition series_eq (s : Series) (x : string) : list (nat * bool) :=
  map (fun e => (fst e, py_eq (snd e) x)) s.

(** Selection of the rows under a boolean mask that was computed from the
    same frame (so mask and rows are aligned position by position). *)
Fixpoint take_mask {A : Type} (l : list A) (mask : list bool) : list A :=
  match l, mask with
  | x :: l', b :: mask' =>
      if b then x :: take_mask l' mask' else take_mask l' mask'
  | _, _ => []
  end.

(** [df[mask]]: labels stay with their rows. *)
Definition getitem_mask (df : DataFrame) (mask : list (nat * bool)) : DataFrame :=
  {| columns := columns df; rows := take_mask (rows df) (values mask) |}.

(** [series[k]] for an integer [k] on an integer index: lookup by LABEL,
    not by position; [None] is KeyError. *)
Fixpoint series_getitem (s : Series) (k : nat) : option value :=
  match s with
  | [] => None
  | (l, v) :: s' => if Nat.eqb l k then Some v else series_getitem s' k
  end.

(** [df.empty]: some axis has length 0. *)
Definition empty (df : DataFrame) : bool :=
  match columns df, rows df with
  | [], _ => true
  | _, [] => true
  | _, _ => false
  end.

(** A fresh RangeIndex 0..n-1. *)
Definition range_index {A : Type} (l : list A) : list (nat * A) :=
  combine (seq 0 (List.length l)) l.

Definition mem (x : string) (l : list string) : bool :=
  existsb (String.eqb x) l.

(** The cells of [df]'s rows laid out under the columns [cols]. *)
Definition reindex_columns (cols : list string) (df : DataFrame) : list (list value) :=
  map (fun r => map (cell (columns df) (snd r)) cols) (rows df).

(** [pd.concat([a, b], ignore_index=True)]: the columns of [a] followed by
    the new ones of [b], the rows of [a] then those of [b], relabelled. *)
Definition concat_ignore_index (a b : DataFrame) : DataFrame :=
  let cols := columns a ++ filter (fun c => negb (mem c (columns a))) (columns b) in
  {| columns := cols;
     rows := range_index (reindex_columns cols a ++ reindex_columns cols b) |}.

(** Ordering of the sort keys: [str] by code units, NaN after every
    string ([na_position='last']). *)
Definition key_leb (a b : value) : bool :=
  match a, b with
  | VStr s, VStr t => String.leb s t
  | VStr _, VNaN => true
  | VNaN, VStr _ => false
  | VNaN, VNaN => true
  end.

Section Sort.
Context {A : Type} (key : A -> value).

Fixpoint insert_by (x : A) (l : list A) : list A :=
  match l with
  | [] => [x]
  | y :: l' =>
      if key_leb (key x) (key y) then x :: l
      else y :: insert_by x l'
  end.

(** Ascending arrangement by key.  The place pandas gives to rows of
    equal key is left open by its default sort kind; here they keep
    their earlier order, as they do in pandas on tables of up to 16 rows.
    No statement below depends on the order of rows of equal key. *)
Definition argsort (l : list A) : list A :=
  fold_right insert_by [] l.

(** [x] may stand before [y] in ascending order of the key. *)
Definition key_le (x y : A) : Prop := key_leb (key x) (key y) = true.
End Sort.

Definition is_nan (v : value) : bool :=
  match v with VNaN => true | VStr _ => false end.

(** [df.sort_values(by=name)]: the rows with a key in ascending order,
    then the rows whose key is NaN; [None] is KeyError. *)
Definition sort_values (df : DataFrame) (name : string) : option DataFrame :=
  match get_loc name (columns df) with
  | None => None
  | Some j =>
      let key := fun r : nat * list value => nth j (snd r) VNaN in
      let keyed := filter (fun r => negb (is_nan (key r))) (rows df) in
      let nans := filter (fun r => is_nan (key r)) (rows df) in
      Some {| columns := columns df; rows := argsort key keyed ++ nans |}
  end.

(** *** The persisted file *)

Record csv_file : Type := {
  header : list string;
  records : list (list string)
}.

(** How [to_csv] writes a cell: NaN as the empty field. *)
Definition render (v : value) : string :=
  match v with
  | VStr s => s
  | VNaN => ""
  end.

(** [df.to_csv(path, index=False)]: header line, then one record per row;
    the index labels are not written.  The records are what the parser
    will find in the file as long as the cells consist of printable
    characters; [read_csv] declines any other file. *)
Definition to_csv (df : DataFrame) : csv_file :=
  {| header := columns df;
     records := map (fun r => map render (snd r)) (rows df) |}.

(** The fields [read_csv] takes for a missing value by default. *)
Definition na_values : list string :=
  [""; "#N/A"; "#N/A N/A"; "#NA"; "-1.#IND"; "-1.#QNAN"; "-NaN"; "-nan";
   "1.#IND"; "1.#QNAN"; "<NA>"; "N/A"; "NA"; "NULL"; "NaN"; "None";
   "n/a"; "nan"; "null"].

Definition is_na (f : string) : bool := mem f na_values.

Definition in_range (lo hi : nat) (c : ascii) : bool :=
  let n := nat_of_ascii c in Nat.leb lo n && Nat.leb n hi.

(** The letters A to Z mapped to a to z, as the parser's comparison without
    regard to case does. *)
Fixpoint fold_case (s : string) : string :=
  match s with
  | EmptyString => EmptyString
  | String c s' =>
      String (if in_range 65 90 c then ascii_of_nat (nat_of_ascii c + 32) else c)
        (fold_case s')
  end.

(** The fields read as booleans when a whole column consists of them:
    true and false in any letter case. *)
Definition bool_tokens : list string := ["true"; "false"].

Definition is_bool (f : string) : bool := mem (fold_case f) bool_tokens.

(** The characters from the space to the tilde. *)
Definition printable_char (c : ascii) : bool := in_range 32 126 c.

Definition printable (f : string) : bool :=
  forallb printable_char (list_ascii_of_string f).

Definition is_space (c : ascii) : bool :=
  in_range 9 13 c || Nat.eqb (nat_of_ascii c) 32.

(** The characters a field must consist of for the parser to read it as a
    number: blanks, digits, sign, decimal point, exponent mark, and the
    letters of inf, infinity and nan in either case. *)
Definition numeric_char (c : ascii) : bool :=
  is_space c || in_range 48 57 c
  || existsb (Ascii.eqb c) (list_ascii_of_string "+-.eEiInNfFtTyYaA").

Definition not_a_number (f : string) : bool :=
  existsb (fun c => negb (numeric_char c)) (list_ascii_of_string f).

(** A field that the parser keeps as text wherever it stands: it cannot
    be a number and is not a boolean.  (A column is typed from all its
    fields, and in a long file stretch by stretch, so that a field which
    could be a number is kept as text only in the company of others.) *)
Definition text_field (f : string) : bool :=
  not_a_number f && negb (is_bool f).

Definition parse_field (f : string) : value :=
  if is_na f then VNaN else VStr f.

Inductive covered (A : Type) : Type :=
| Covered (a : A)
| Uncovered.
Arguments Covered {A} a.
Arguments Uncovered {A}.

Fixpoint nodup_names (l : list string) : bool :=
  match l with
  | [] => true
  | x :: l' => negb (mem x l') && nodup_names l'
  end.

Definition column_fields (recs : list (list string)) (j : nat) : list string :=
  map (fun r => nth j r "") recs.

(** A column is within the model when each of its fields is missing or is
    kept as text wherever it stands. *)
Definition column_covered (fields : list string) : bool :=
  forallb (fun f => is_na f || text_field f) fields.

(** The header names and the fields are all of printable characters. *)
Definition printable_file (f : csv_file) : bool :=
  forallb printable (header f) && forallb (forallb printable) (records f).

(** [pd.read_csv(path)] on an existing file. *)
Definition read_csv (f : csv_file) : covered DataFrame :=
  let n := List.length (header f) in
  if negb (Nat.eqb n 0)
     && nodup_names (header f)
     && negb (mem "" (header f))
     && forallb (fun r => Nat.eqb (List.length r) n) (records f)
     && forallb (fun j => column_covered (column_fields (records f) j)) (seq 0 n)
     && printable_file f
  then Covered {| columns := header f;
                  rows := range_index (map (map parse_field) (records f)) |}
  else Uncovered.

End Pandas.

(** ** The Python library *)
Module Python.
Import Pandas.

Inductive exn : Type :=
| FileNotFoundError
| KeyError
| IndexError
| ValueError
| NotFittedError
| EOFError.

Definition upper_char (c : ascii) : ascii :=
  if in_range 97 122 c then ascii_of_nat (nat_of_ascii c - 32) else c.

Definition lower_char (c : ascii) : ascii :=
  if in_range 65 90 c then ascii_of_nat (nat_of_ascii c + 32) else c.

Fixpoint lower (s : string) : string :=
  match s with
  | EmptyString => EmptyString
  | String c s' => String (lower_char c) (lower s')
  end.

(** [str.capitalize]: first character upper case, the rest lower case. *)
Definition capitalize (s : string) : string :=
  match s with
  | EmptyString => EmptyString
  | String c s' => String (upper_char c) (lower s')
  end.

(** [random.choice(seq)] is [seq[randbelow(len(seq))]], IndexError on an
    empty sequence.  On a Series the subscript is [series_getitem]: the
    drawn position [k] is looked up among the index labels. *)
Definition choice (k : nat) (s : Series) : exn + value :=
  match s with
  | [] => inl IndexError
  | _ :: _ =>
      match series_getitem s k with
      | Some v => inr v
      | None => inl KeyError
      end
  end.

End Python.

(** ** scikit-learn *)
Module Sklearn.
Import Pandas.

(** [make_pipeline(CountVectorizer(stop_words='english', min_df=1),
    MultinomialNB())], as far as the task manager observes it. *)
Record Classifier : Type := {
  (** whether [fit(X, y)] returns rather than raises *)
  fit : list value -> list value -> bool;
  (** the label the pipeline fitted on [(X, y)] predicts for a text *)
  predict_one : list value -> list value -> string -> string
}.

(** [self.model]: a pipeline not fitted yet, or fitted on [(X, y)]. *)
Inductive pipeline : Type :=
| Unfitted
| Fitted (X y : list value).

(** The labels for a list of documents; [None] when a document is not a
    [str] (the vectorizer raises on NaN). *)
Fixpoint predict_docs (label : string -> string) (docs : list value) : option (list string) :=
  match docs with
  | [] => Some []
  | VStr s :: docs' => option_map (cons (label s)) (predict_docs label docs')
  | VNaN :: _ => None
  end.

(** A stand-in classifier for concrete runs: fitting succeeds on any
    non-empty training set, and every text gets the first training label. *)
Definition first_label : Classifier :=
  {| fit := fun X _ => match X with [] => false | _ :: _ => true end;
     predict_one := fun _ y _ => match y with VStr l :: _ => l | _ => "" end |}.

End Sklearn.

(** ** class TaskManager *)
Module TaskManager.
Import Pandas Python Sklearn.

Inductive event : Type :=
| EvPrint (s : string)
| EvPrintFrame (df : DataFrame)
| EvPrompt (s : string)
| EvSave (f : csv_file)
| EvFit (X y : list value).

(** The object's attributes, tasks.csv, what has been written to the
    terminal or handed to the libraries so far, and the number of random
    draws made. *)
Record state : Type := {
  tasks : DataFrame;
  model : pipeline;
  disk : option csv_file;
  trace : list event;
  draws : nat
}.

Inductive outcome : Type :=
| Returns (st : state)
| Raises (e : exn) (st : state).

Definition state_of (o : outcome) : state :=
  match o with
  | Returns st => st
  | Raises _ st => st
  end.

Definition bind (o : outcome) (k : state -> outcome) : outcome :=
  match o with
  | Returns st => k st
  | Raises e st => Raises e st
  end.

Notation "o >>= k" := (bind o k) (at level 50, left associativity).

Definition set_tasks (df : DataFrame) (st : state) : state :=
  {| tasks := df; model := model st; disk := disk st;
     trace := trace st; draws := draws st |}.

Definition set_model (m : pipeline) (st : state) : state :=
  {| tasks := tasks st; model := m; disk := disk st;
     trace := trace st; draws := draws st |}.

Definition set_disk (f : csv_file) (st : state) : state :=
  {| tasks := tasks st; model := model st; disk := Some f;
     trace := trace st; draws := draws st |}.

Definition log (e : event) (st : state) : state :=
  {| tasks := tasks st; model := model st; disk := disk st;
     trace := trace st ++ [e]; draws := draws st |}.

Definition next_draw (st : state) : state :=
  {| tasks := tasks st; model := model st; disk := disk st;
     trace := trace st; draws := S (draws st) |}.

Definition print (s : string) (st : state) : state := log (EvPrint s) st.

(** [load_tasks]: a missing file is the one failure it catches. *)
Definition load_tasks (st : state) : covered outcome :=
  match disk st with
  | None => Covered (Returns st)
  | Some f =>
      match read_csv f with
      | Covered df => Covered (Returns (set_tasks df st))
      | Uncovered => Uncovered
      end
  end.

Definition save_tasks (st : state) : outcome :=
  let f := to_csv (tasks st) in
  Returns (log (EvSave f) (set_disk f st)).

Section World.
Context (clf : Classifier) (rng : nat -> nat).

(** [train_model]: the new pipeline is assigned before it is fitted. *)
Definition train_model (st : state) : outcome :=
  let st := set_model Unfitted st in
  match getitem (tasks st) "description" with
  | None => Raises KeyError st
  | Some X =>
      match getitem (tasks st) "priority" with
      | None => Raises KeyError st
      | Some y =>
          let st := log (EvFit (values X) (values y)) st in
          if fit clf (values X) (values y)
          then Returns (set_model (Fitted (values X) (values y)) st)
          else Raises ValueError st
      end
  end.

(** The state a fresh object starts [__init__] from: the empty table of
    the two columns; [self.model] is first assigned by [train_model]. *)
Definition fresh (d : option csv_file) : state :=
  {| tasks := DataFrame_of_columns ["description"; "priority"];
     model := Unfitted; disk := d; trace := []; draws := 0 |}.

Definition init (d : option csv_file) : covered outcome :=
  match load_tasks (fresh d) with
  | Covered o => Covered (o >>= train_model)
  | Uncovered => Uncovered
  end.

Definition add_task (description priority : string) (st : state) : outcome :=
  let new_task := DataFrame_of_task description priority in
  let st := set_tasks (concat_ignore_index (tasks st) new_task) st in
  save_tasks st >>= train_model.

Definition remove_task (description : string) (st : state) : outcome :=
  match getitem (tasks st) "description" with
  | None => Raises KeyError st
  | Some col =>
      let st := set_tasks (getitem_mask (tasks st) (series_ne col description)) st in
      save_tasks st
  end.

Definition list_tasks (st : state) : outcome :=
  if empty (tasks st)
  then Returns (print "No tasks available." st)
  else Returns (log (EvPrintFrame (tasks st)) st).

Definition prioritize_tasks (st : state) : outcome :=
  match sort_values (tasks st) "priority" with
  | None => Raises KeyError st
  | Some df => save_tasks (set_tasks df st)
  end.

(** [self.model.predict(docs)] *)
Definition predict (m : pipeline) (docs : list value) : exn + list string :=
  match m with
  | Unfitted => inl NotFittedError
  | Fitted X y =>
      match predict_docs (predict_one clf X y) docs with
      | Some labels => inr labels
      | None => inl ValueError
      end
  end.

(** The value [randbelow(n)] returns at the current draw. *)
Definition randbelow (st : state) (n : nat) : nat :=
  Nat.modulo (rng (draws st)) n.

Definition recommend_task (st : state) : outcome :=
  if empty (tasks st)
  then Returns (print "No tasks available for recommendations." st)
  else
    match getitem (tasks st) "description" with
    | None => Raises KeyError st
    | Some docs =>
        match predict (model st) (values docs) with
        | inl e => Raises e st
        | inr predictions =>
            let first := nth 0 predictions "" in
            match getitem (tasks st) "priority" with
            | None => Raises KeyError st
            | Some prio =>
                let chosen := getitem_mask (tasks st) (series_eq prio first) in
                match getitem chosen "description" with
                | None => Raises KeyError st
                | Some candidates =>
                    let k := randbelow st (List.length candidates) in
                    let st := match candidates with
                              | [] => st
                              | _ :: _ => next_draw st
                              end in
                    match choice k candidates with
                    | inl e => Raises e st
                    | inr recommended_task =>
                        Returns (print ("Recommended task: " ++ py_str recommended_task
                                        ++ " - Priority: " ++ first) st)
                    end
                end
            end
        end
    end.

Definition banner : list string :=
  [String "010"%char "Task Management App";
   "1. Add Task"; "2. Remove Task"; "3. List Tasks";
   "4. Prioritize Tasks"; "5. Recommend Task"; "6. Exit"].

Definition print_all (l : list string) (st : state) : state :=
  fold_left (fun st s => print s st) l st.

Definition prompt (s : string) (st : state) : state := log (EvPrompt s) st.

Definition priorities : list string := ["Low"; "Medium"; "High"].

(** [main_menu]: the loop reads its lines from [stdin] and ends by the
    exit choice or by an exception, among them EOFError when the input
    runs out. *)
Fixpoint main_menu (st : state) (stdin : list string) {struct stdin} : outcome :=
  let st := prompt "Select an option: " (print_all banner st) in
  match stdin with
  | [] => Raises EOFError st
  | choice :: rest =>
      if String.eqb choice "1" then
        let st := prompt "Enter task description: " st in
        match rest with
        | [] => Raises EOFError st
        | description :: rest1 =>
            let st := prompt "Enter task priority (Low/Medium/High): " st in
            match rest1 with
            | [] => Raises EOFError st
            | line :: rest2 =>
                let priority := capitalize line in
                if negb (mem priority priorities) then
                  main_menu
                    (print "Invalid priority! Please enter Low, Medium, or High." st)
                    rest2
                else
                  match add_task description priority st with
                  | Returns st => main_menu (print "Task added successfully." st) rest2
                  | Raises e st => Raises e st
                  end
            end
        end
      else if String.eqb choice "2" then
        let st := prompt "Enter task description to remove: " st in
        match rest with
        | [] => Raises EOFError st
        | description :: rest1 =>
            match remove_task description st with
            | Returns st => main_menu (print "Task removed successfully." st) rest1
            | Raises e st => Raises e st
            end
        end
      else if String.eqb choice "3" then
        match list_tasks st with
        | Returns st => main_menu st rest
        | Raises e st => Raises e st
        end
      else if String.eqb choice "4" then
        match prioritize_tasks st with
        | Returns st => main_menu (print "Tasks prioritized successfully." st) rest
        | Raises e st => Raises e st
        end
      else if String.eqb choice "5" then
        match recommend_task st with
        | Returns st => main_menu st rest
        | Raises e st => Raises e st
        end
      else if String.eqb choice "6" then
        Returns (print "Goodbye!" st)
      else
        main_menu (print "Invalid option. Please select a valid option." st) rest
  end.

End World.

(** The table has exactly the two columns, and each row a cell for each. *)
Definition has_schema (df : DataFrame) : Prop :=
  columns df = ["description"; "priority"]
  /\ Forall (fun r => List.length (snd r) = 2) (rows df).

Definition description_of (r : nat * list value) : value := nth 0 (snd r) VNaN.
Definition priority_of (r : nat * list value) : value := nth 1 (snd r) VNaN.



(** A cell that is a string of printable characters which the parser does
    not take for a missing value, a number or a boolean: it is no NA
    spelling, has a character that no number is written with (see
    [numeric_char]), and is not true or false in any letter case. *)
Definition present_text (v : value) : Prop :=
  exists s, v = VStr s /\ is_na s = false /\ printable s = true
            /\ text_field s = true.


End TaskManager.

(** ** Sample tables and sessions *)
Module Samples.
Import Pandas Python Sklearn TaskManager.

Definition task_columns : list string := ["description"; "priority"].

(** The store of the specification's example. *)
Definition two_tasks : DataFrame :=
  {| columns := task_columns;
     rows := [(0, [VStr "write report"; VStr "High"]);
              (1, [VStr "buy milk"; VStr "Low"])] |}.

Definition three_tasks : DataFrame :=
  {| columns := task_columns;
     rows := [(0, [VStr "write report"; VStr "High"]);
              (1, [VStr "email team"; VStr "Medium"]);
              (2, [VStr "buy milk"; VStr "Low"])] |}.


Definition at_rest (df : DataFrame) : state :=
  {| tasks := df; model := Unfitted; disk := Some (to_csv df);
     trace := []; draws := 0 |}.

(** tasks.csv holding the one task (write report, Low). *)
Definition one_low_task : csv_file :=
  {| header := task_columns; records := [["write report"; "Low"]] |}.

(** A session: start on [one_low_task], add (buy milk, Low), remove
    write report. *)
Definition session (clf : Classifier) : covered outcome :=
  match init clf (Some one_low_task) with
  | Covered o =>
      Covered (o >>= add_task clf "buy milk" "Low" >>= remove_task "write report")
  | Uncovered => Uncovered
  end.

Definition zeros : nat -> nat := fun _ => 0.

End Samples.

(** ** Further notions and sample inputs *)
Module Cases.
Import Pandas Python Sklearn TaskManager Samples.

(** tasks.csv holds the table that is in memory. *)
Definition synced (st : state) : Prop :=
  disk st = Some (to_csv (tasks st)).

(** The index labels of a frame, in row order. *)
Definition labels (df : DataFrame) : list nat := map fst (rows df).


(** The columns the next fit is given after [add_task d p]. *)
Definition next_table (st : state) (d p : string) : DataFrame :=
  concat_ignore_index (tasks st) (DataFrame_of_task d p).

Definition descriptions (df : DataFrame) : list value := map description_of (rows df).
Definition stored_priorities (df : DataFrame) : list value := map priority_of (rows df).

(** A stand-in classifier whose fit raises on a document that is not a
    string, as the vectorizer does, and on no documents. *)
Definition text_only : Classifier :=
  {| fit := fun X _ =>
              match X with
              | [] => false
              | _ :: _ => forallb (fun v => negb (is_nan v)) X
              end;
     predict_one := fun _ y _ => match y with VStr l :: _ => l | _ => "" end |}.

(** The table read from a file in which a description was left blank. *)
Definition blank_loaded : DataFrame :=
  {| columns := task_columns;
     rows := [(0, [VStr "write report"; VStr "High"]);
              (1, [VNaN; VStr "Low"])] |}.

(** Two tasks of one priority, and a state whose pipeline was fitted on
    them. *)
Definition two_low_tasks : DataFrame :=
  {| columns := task_columns;
     rows := [(0, [VStr "write report"; VStr "Low"]);
              (1, [VStr "buy milk"; VStr "Low"])] |}.

Definition trained (df : DataFrame) : state :=
  {| tasks := df; model := Fitted (descriptions df) (stored_priorities df);
     disk := Some (to_csv df); trace := []; draws := 0 |}.

(** A state whose pipeline is older than its table: fitted on a High task
    that has since been removed. *)
Definition stale : state :=
  {| tasks := {| columns := task_columns;
                 rows := [(1, [VStr "buy milk"; VStr "Low"])] |};
     model := Fitted [VStr "write report"; VStr "buy milk"] [VStr "High"; VStr "Low"];
     disk := None; trace := []; draws := 0 |}.

(** The state in which the menu waits for a choice: the menu has been
    printed and the prompt written. *)
Definition shown (st : state) : state :=
  prompt "Select an option: " (print_all banner st).

(** [st'] has everything that was written in [st], and perhaps more after
    it. *)
Definition extends (st st' : state) : Prop :=
  exists evs, trace st' = trace st ++ evs.

(** A choice line that calls no method that can raise: the listing, or a
    line that is no choice. *)
Definition harmless (l : string) : Prop :=
  l = "3" \/ ~ In l ["1"; "2"; "3"; "4"; "5"; "6"].

(** A description that holds a carriage return. *)
Definition broken_line : DataFrame :=
  {| columns := task_columns;
     rows := [(0, [VStr ("buy milk" ++ String "013"%char ""); VStr "Low"])] |}.

(** A file written by another program, without a description column. *)
Definition foreign_file : csv_file :=
  {| header := ["task"; "priority"]; records := [["write report"; "High"]] |}.

End Cases.

(** * Properties *)

Import Pandas Python Sklearn TaskManager Samples Cases.

(** ** Lists, masks and labels *)

Lemma take_mask_map {A : Type} (f : A -> bool) (l : list A) :
  take_mask l (map f l) = filter f l.
Proof.
  induction l as [|x l IH]; simpl; [reflexivity|].
  rewrite IH. reflexivity.
Qed.

Lemma filter_twice {A : Type} (f : A -> bool) (l : list A) :
  filter f (filter f l) = filter f l.
Proof.
  induction l as [|x l IH]; simpl; [reflexivity|].
  destruct (f x) eqn:E; simpl; rewrite ?E, IH; reflexivity.
Qed.

Lemma filter_all {A : Type} (f : A -> bool) (l : list A) :
  Forall (fun x => f x = true) l -> filter f l = l.
Proof.
  induction 1 as [|x l Hx _ IH]; simpl; [reflexivity|].
  rewrite Hx, IH. reflexivity.
Qed.

Lemma values_range_index {A : Type} (l : list A) :
  values (range_index l) = l.
Proof.
  unfold values, range_index.
  generalize 0. induction l as [|x l IH]; intros n; simpl; [reflexivity|].
  rewrite IH. reflexivity.
Qed.

Lemma Forall_range_index {A : Type} (P : A -> Prop) (l : list A) :
  Forall P l -> Forall (fun r => P (snd r)) (range_index l).
Proof.
  intros H. apply Forall_forall. intros r Hr.
  rewrite Forall_forall in H. apply H.
  rewrite <- (values_range_index l). unfold values. apply in_map. exact Hr.
Qed.

Lemma get_loc_mem (name : string) (cols : list string) :
  mem name cols = true -> exists j, get_loc name cols = Some j.
Proof.
  unfold mem. induction cols as [|c cols IH]; simpl; [discriminate|].
  intros H. rewrite String.eqb_sym in H.
  destruct (String.eqb c name); simpl in H.
  - exists 0. reflexivity.
  - destruct (IH H) as [j Hj]. exists (S j). rewrite Hj. reflexivity.
Qed.

Lemma getitem_cell (df : DataFrame) (name : string) (col : Series) :
  getitem df name = Some col ->
  col = map (fun r => (fst r, cell (columns df) (snd r) name)) (rows df).
Proof.
  unfold getitem, cell. destruct (get_loc name (columns df)); [|discriminate].
  intros H. injection H as <-. reflexivity.
Qed.

Lemma getitem_None_cell (df : DataFrame) (name : string) :
  getitem df name = None -> get_loc name (columns df) = None.
Proof.
  unfold getitem. destruct (get_loc name (columns df)); [discriminate|reflexivity].
Qed.

(** The rows [df[df[name] != x]] keeps. *)
Lemma mask_ne_filter (df : DataFrame) (name x : string) (col : Series) :
  getitem df name = Some col ->
  rows (getitem_mask df (series_ne col x))
  = filter (fun r => py_ne (cell (columns df) (snd r) name) x) (rows df).
Proof.
  intros H. rewrite (getitem_cell _ _ _ H). unfold getitem_mask, series_ne, values.
  simpl. rewrite !map_map. simpl. apply take_mask_map.
Qed.

Lemma mask_eq_filter (df : DataFrame) (name x : string) (col : Series) :
  getitem df name = Some col ->
  rows (getitem_mask df (series_eq col x))
  = filter (fun r => py_eq (cell (columns df) (snd r) name) x) (rows df).
Proof.
  intros H. rewrite (getitem_cell _ _ _ H). unfold getitem_mask, series_eq, values.
  simpl. rewrite !map_map. simpl. apply take_mask_map.
Qed.

Lemma py_eq_value_eqb (v : value) (s : string) : py_eq v s = value_eqb v (VStr s).
Proof. destruct v; reflexivity. Qed.

Lemma value_eqb_eq (a b : value) : value_eqb a b = true <-> a = b.
Proof.
  destruct a, b; simpl; try (split; [discriminate|congruence]); try tauto.
  rewrite String.eqb_eq. split; congruence.
Qed.

(** ** The two-column schema *)

Lemma schema_description (df : DataFrame) (r : list value) :
  columns df = ["description"; "priority"] ->
  cell (columns df) r "description" = nth 0 r VNaN.
Proof. intros ->. reflexivity. Qed.

Lemma schema_priority (df : DataFrame) (r : list value) :
  columns df = ["description"; "priority"] ->
  cell (columns df) r "priority" = nth 1 r VNaN.
Proof. intros ->. reflexivity. Qed.

Lemma schema_getitem_description (df : DataFrame) :
  columns df = ["description"; "priority"] ->
  getitem df "description" = Some (map (fun r => (fst r, description_of r)) (rows df)).
Proof. unfold getitem. intros ->. reflexivity. Qed.

Lemma schema_getitem_priority (df : DataFrame) :
  columns df = ["description"; "priority"] ->
  getitem df "priority" = Some (map (fun r => (fst r, priority_of r)) (rows df)).
Proof. unfold getitem. intros ->. reflexivity. Qed.

Lemma schema_reindex (df : DataFrame) :
  has_schema df ->
  reindex_columns ["description"; "priority"] df = values (rows df).
Proof.
  intros [Hc Hr]. unfold reindex_columns, values. rewrite Hc.
  apply map_ext_in. intros r Hin.
  rewrite Forall_forall in Hr. specialize (Hr r Hin).
  destruct (snd r) as [|a [|b [|c l]]]; try discriminate. reflexivity.
Qed.

Lemma concat_schema (df : DataFrame) (d p : string) :
  has_schema df ->
  concat_ignore_index df (DataFrame_of_task d p)
  = {| columns := ["description"; "priority"];
       rows := range_index (values (rows df) ++ [[VStr d; VStr p]]) |}.
Proof.
  intros H. unfold concat_ignore_index.
  destruct H as [Hc Hr]. rewrite Hc. simpl filter. simpl app at 1.
  rewrite <- Hc at 1. rewrite Hc.
  change (["description"; "priority"] ++ []) with ["description"; "priority"].
  rewrite (schema_reindex df (conj Hc Hr)). reflexivity.
Qed.

(** ** The order of the sort keys *)

Lemma ascii_compare_trans (a b c : ascii) (o : comparison) :
  Ascii.compare a b = o -> Ascii.compare b c = o -> Ascii.compare a c = o.
Proof.
  unfold Ascii.compare. intros H1 H2. destruct o.
  - apply BinNat.N.compare_eq_iff in H1, H2. apply BinNat.N.compare_eq_iff. congruence.
  - rewrite BinNat.N.compare_lt_iff in *. eapply BinNat.N.lt_trans; eassumption.
  - rewrite BinNat.N.compare_gt_iff in *. eapply BinNat.N.lt_trans; eassumption.
Qed.

Lemma string_compare_not_gt_trans (s t u : string) :
  String.compare s t <> Gt -> String.compare t u <> Gt -> String.compare s u <> Gt.
Proof.
  revert t u. induction s as [|a s IH]; intros [|b t] [|c u]; simpl; try congruence.
  destruct (Ascii.compare a b) eqn:Hab; destruct (Ascii.compare b c) eqn:Hbc;
    try congruence; intros H1 H2.
  - rewrite (ascii_compare_trans _ _ _ _ Hab Hbc). eauto.
  - apply Ascii.compare_eq_iff in Hab. subst b. rewrite Hbc. congruence.
  - apply Ascii.compare_eq_iff in Hbc. subst c. rewrite Hab. congruence.
  - rewrite (ascii_compare_trans _ _ _ _ Hab Hbc). congruence.
Qed.

Lemma string_leb_not_gt (s t : string) :
  String.leb s t = true <-> String.compare s t <> Gt.
Proof.
  unfold String.leb. destruct (String.compare s t); split; congruence.
Qed.

Lemma key_leb_trans (a b c : value) :
  key_leb a b = true -> key_leb b c = true -> key_leb a c = true.
Proof.
  destruct a as [s|], b as [t|], c as [u|]; simpl; try congruence.
  rewrite !string_leb_not_gt. apply string_compare_not_gt_trans.
Qed.

Lemma key_leb_total (a b : value) : key_leb a b = true \/ key_leb b a = true.
Proof.
  destruct a as [s|], b as [t|]; simpl; auto. apply String.leb_total.
Qed.

Lemma key_leb_nan (a : value) : key_leb a VNaN = true.
Proof. destruct a; reflexivity. Qed.

Section SortProps.
Context {A : Type} (key : A -> value).

Lemma insert_by_perm (x : A) (l : list A) : Permutation (x :: l) (insert_by key x l).
Proof.
  induction l as [|y l IH]; simpl; [apply Permutation_refl|].
  destruct (key_leb (key x) (key y)); [apply Permutation_refl|].
  eapply perm_trans; [apply perm_swap|]. apply perm_skip. exact IH.
Qed.

Lemma argsort_perm (l : list A) : Permutation l (argsort key l).
Proof.
  induction l as [|x l IH]; simpl; [apply perm_nil|].
  eapply perm_trans; [apply perm_skip, IH|]. apply insert_by_perm.
Qed.

Lemma insert_by_sorted (x : A) (l : list A) :
  StronglySorted (key_le key) l -> StronglySorted (key_le key) (insert_by key x l).
Proof.
  induction 1 as [|y l Hs IH Hy]; simpl.
  - constructor; constructor.
  - destruct (key_leb (key x) (key y)) eqn:E.
    + constructor; [constructor; assumption|].
      constructor; [exact E|].
      eapply Forall_impl; [|exact Hy]. intros z Hz.
      unfold key_le in *. eapply key_leb_trans; eassumption.
    + constructor; [exact IH|].
      eapply Permutation_Forall; [apply insert_by_perm|].
      constructor; [|exact Hy].
      destruct (key_leb_total (key x) (key y)) as [H|H]; [congruence|exact H].
Qed.

Lemma argsort_sorted (l : list A) : StronglySorted (key_le key) (argsort key l).
Proof.
  induction l as [|x l IH]; simpl; [constructor|].
  apply insert_by_sorted, IH.
Qed.

Lemma sorted_then_nans (l n : list A) :
  StronglySorted (key_le key) l ->
  Forall (fun x => key x = VNaN) n ->
  StronglySorted (key_le key) (l ++ n).
Proof.
  intros Hl Hn. induction Hl as [|y l Hs IH Hy]; simpl.
  - induction Hn as [|z n Hz Hn IH]; constructor; [exact IH|].
    eapply Forall_impl; [|exact Hn]. intros w Hw. unfold key_le.
    rewrite Hw. apply key_leb_nan.
  - constructor; [exact IH|]. apply Forall_app. split; [exact Hy|].
    eapply Forall_impl; [|exact Hn]. intros w Hw. unfold key_le.
    rewrite Hw. apply key_leb_nan.
Qed.

Lemma partition_perm (f : A -> bool) (l : list A) :
  Permutation l (filter (fun x => negb (f x)) l ++ filter f l).
Proof.
  induction l as [|x l IH]; simpl; [apply perm_nil|].
  destruct (f x); simpl.
  - apply Permutation_cons_app. exact IH.
  - apply perm_skip. exact IH.
Qed.
End SortProps.

(** [sort_values] on a frame that has the column. *)
Lemma sort_values_spec (df df' : DataFrame) (name : string) :
  sort_values df name = Some df' ->
  columns df' = columns df
  /\ Permutation (rows df) (rows df')
  /\ StronglySorted (key_le (fun r => cell (columns df) (snd r) name)) (rows df').
Proof.
  unfold sort_values, cell. destruct (get_loc name (columns df)) as [j|]; [|discriminate].
  intros H. injection H as <-. simpl. split; [reflexivity|]. split.
  - eapply perm_trans; [apply (partition_perm (fun r => is_nan (nth j (snd r) VNaN)))|].
    apply Permutation_app_tail. apply argsort_perm.
  - apply sorted_then_nans; [apply argsort_sorted|].
    apply Forall_forall. intros r Hr. apply filter_In in Hr. destruct Hr as [_ Hr].
    destruct (nth j (snd r) VNaN); [discriminate|reflexivity].
Qed.

(** ** What the methods do to the table *)

Lemma save_tasks_state (st : state) :
  save_tasks st = Returns (log (EvSave (to_csv (tasks st))) (set_disk (to_csv (tasks st)) st)).
Proof. reflexivity. Qed.

Lemma train_model_tasks (clf : Classifier) (st : state) :
  tasks (state_of (train_model clf st)) = tasks st.
Proof.
  unfold train_model. simpl.
  destruct (getitem (tasks st) "description"); [|reflexivity].
  destruct (getitem (tasks st) "priority"); [|reflexivity].
  destruct (fit clf _ _); reflexivity.
Qed.

Lemma add_task_tasks (clf : Classifier) (st : state) (d p : string) :
  tasks (state_of (add_task clf d p st))
  = concat_ignore_index (tasks st) (DataFrame_of_task d p).
Proof.
  unfold add_task. rewrite save_tasks_state. unfold bind.
  rewrite train_model_tasks. reflexivity.
Qed.

Lemma remove_task_tasks (st : state) (d : string) :
  tasks (state_of (remove_task d st))
  = match get_loc "description" (columns (tasks st)) with
    | Some _ =>
        {| columns := columns (tasks st);
           rows := filter (fun r => py_ne (cell (columns (tasks st)) (snd r) "description") d)
                     (rows (tasks st)) |}
    | None => tasks st
    end.
Proof.
  unfold remove_task. destruct (getitem (tasks st) "description") as [col|] eqn:E.
  - pose proof (mask_ne_filter _ _ d _ E) as Hrows.
    unfold getitem in E. destruct (get_loc "description" (columns (tasks st))); [|discriminate].
    simpl. unfold getitem_mask in *. simpl in Hrows. rewrite Hrows. reflexivity.
  - rewrite (getitem_None_cell _ _ E). reflexivity.
Qed.

Lemma prioritize_tasks_tasks (st : state) :
  tasks (state_of (prioritize_tasks st))
  = match sort_values (tasks st) "priority" with
    | Some df => df
    | None => tasks st
    end.
Proof.
  unfold prioritize_tasks. destruct (sort_values (tasks st) "priority"); reflexivity.
Qed.

Lemma concat_task_columns (a : DataFrame) (d p : string) :
  exists X y,
    getitem (concat_ignore_index a (DataFrame_of_task d p)) "description" = Some X
    /\ getitem (concat_ignore_index a (DataFrame_of_task d p)) "priority" = Some y.
Proof.
  assert (Hm : forall name, In name ["description"; "priority"] ->
             mem name (columns (concat_ignore_index a (DataFrame_of_task d p))) = true).
  { intros name Hin. unfold concat_ignore_index, mem. cbn [columns DataFrame_of_task].
    rewrite existsb_app. apply orb_true_iff.
    destruct (existsb (String.eqb name) (columns a)) eqn:E; [left; reflexivity|right].
    apply existsb_exists. exists name. split; [|apply String.eqb_refl].
    apply filter_In. split; [exact Hin|]. unfold mem. rewrite E. reflexivity. }
  destruct (get_loc_mem _ _ (Hm "description" (or_introl eq_refl))) as [i Hi].
  destruct (get_loc_mem _ _ (Hm "priority" (or_intror (or_introl eq_refl)))) as [j Hj].
  unfold getitem. rewrite Hi, Hj. eauto.
Qed.

Section Methods.
Variable clf : Classifier.
Variable rng : nat -> nat.

(** C2.  On a table with the two columns, [remove_task d] returns, keeps
    the columns, and leaves exactly the rows whose description is not the
    string [d], in the order they had: a row is gone if and only if its
    description cell is the very string [d] (duplicates included). *)
Theorem remove_task_deletes_matching_rows (st : state) (d : string) :
  has_schema (tasks st) ->
  exists st',
    remove_task d st = Returns st'
    /\ columns (tasks st') = columns (tasks st)
    /\ rows (tasks st')
       = filter (fun r => negb (value_eqb (description_of r) (VStr d))) (rows (tasks st))
    /\ (forall r, In r (rows (tasks st'))
                  <-> In r (rows (tasks st)) /\ description_of r <> VStr d).
Proof.
  intros [Hc Hr].
  assert (Hrows : rows (tasks (state_of (remove_task d st)))
                  = filter (fun r => negb (value_eqb (description_of r) (VStr d)))
                      (rows (tasks st))).
  { rewrite remove_task_tasks, Hc. simpl. apply filter_ext. intros r.
    unfold py_ne. rewrite py_eq_value_eqb. reflexivity. }
  assert (Hcols : columns (tasks (state_of (remove_task d st))) = columns (tasks st)).
  { rewrite remove_task_tasks, Hc. reflexivity. }
  revert Hrows Hcols. unfold remove_task.
  rewrite (schema_getitem_description _ Hc). rewrite save_tasks_state.
  cbn [state_of]. intros Hrows Hcols. eexists. split; [reflexivity|].
  split; [exact Hcols|]. split; [exact Hrows|].
  intros r. rewrite Hrows, filter_In. apply and_iff_compat_l.
  rewrite negb_true_iff, <- not_true_iff_false, value_eqb_eq. reflexivity.
Qed.

(** C3.  [remove_task] leaves [self.model] as it was and hands nothing to
    the classifier; [add_task] saves the new table and then fits a new
    pipeline on the new table's two columns, so that afterwards the model
    is the pipeline fitted on them (or, when fitting raises, the unfitted
    new pipeline). *)
Theorem remove_task_keeps_model_add_task_retrains (st : state) (d p : string) :
  (model (state_of (remove_task d st)) = model st
   /\ exists evs, trace (state_of (remove_task d st)) = trace st ++ evs
                  /\ forall X y, ~ In (EvFit X y) evs)
  /\ (let st' := state_of (add_task clf d p st) in
      exists X y,
        getitem (tasks st') "description" = Some X
        /\ getitem (tasks st') "priority" = Some y
        /\ trace st' = trace st ++ [EvSave (to_csv (tasks st'));
                                    EvFit (values X) (values y)]
        /\ model st' = if fit clf (values X) (values y)
                       then Fitted (values X) (values y) else Unfitted).
Proof.
  split.
  - unfold remove_task. destruct (getitem (tasks st) "description") as [col|].
    + simpl. split; [reflexivity|]. eexists. split; [reflexivity|].
      intros X y [H|[]]. discriminate.
    + simpl. split; [reflexivity|]. exists []. rewrite app_nil_r.
      split; [reflexivity|]. intros X y [].
  - cbv zeta. rewrite add_task_tasks.
    destruct (concat_task_columns (tasks st) d p) as (X & y & HX & Hy).
    exists X, y. split; [exact HX|]. split; [exact Hy|].
    unfold add_task. rewrite save_tasks_state. unfold bind, train_model.
    cbn [tasks set_model log set_disk set_tasks]. rewrite HX, Hy.
    destruct (fit clf (values X) (values y)); cbn; rewrite <- app_assoc; split; reflexivity.
Qed.

(** C7.  On a table with the two columns, [add_task d p] whatever the two
    strings are keeps the columns and the earlier rows with their cells and
    order, and puts the one row [(d, p)] after them; a listing made next
    prints the table that holds it. *)
Theorem add_task_appends_one_row (st : state) (d p : string) :
  has_schema (tasks st) ->
  let st' := state_of (add_task clf d p st) in
  columns (tasks st') = columns (tasks st)
  /\ values (rows (tasks st')) = values (rows (tasks st)) ++ [[VStr d; VStr p]]
  /\ list_tasks st' = Returns (log (EvPrintFrame (tasks st')) st').
Proof.
  intros H. cbv zeta.
  assert (Ht := add_task_tasks clf st d p). rewrite (concat_schema _ d p H) in Ht.
  unfold list_tasks, empty. rewrite Ht. cbn [columns rows].
  rewrite values_range_index. destruct H as [Hc Hr]. rewrite Hc.
  split; [reflexivity|]. split; [reflexivity|].
  destruct (range_index (values (rows (tasks st)) ++ [[VStr d; VStr p]])) eqn:E;
    [|reflexivity].
  apply (f_equal values) in E. rewrite values_range_index in E.
  destruct (values (rows (tasks st))); discriminate.
Qed.

(** C9.  Removing the same description a second time changes nothing in
    the table, and a removal that matches no row leaves the table as it
    was. *)
Theorem remove_task_idempotent (st : state) (d : string) :
  tasks (state_of (remove_task d (state_of (remove_task d st))))
  = tasks (state_of (remove_task d st))
  /\ (Forall (fun r => cell (columns (tasks st)) (snd r) "description" <> VStr d)
        (rows (tasks st)) ->
      tasks (state_of (remove_task d st)) = tasks st).
Proof.
  split.
  - rewrite (remove_task_tasks (state_of (remove_task d st))).
    rewrite (remove_task_tasks st).
    destruct (get_loc "description" (columns (tasks st))) eqn:E; cbn [columns rows].
    + rewrite E, filter_twice. reflexivity.
    + rewrite E. reflexivity.
  - intros H. rewrite remove_task_tasks.
    destruct (get_loc "description" (columns (tasks st))); [|reflexivity].
    rewrite filter_all; [destruct (tasks st); reflexivity|].
    eapply Forall_impl; [|exact H]. cbv beta. intros r Hr.
    unfold py_ne. rewrite py_eq_value_eqb, negb_true_iff, <- not_true_iff_false, value_eqb_eq.
    exact Hr.
Qed.

(** C10.  If the table has exactly the columns description and priority
    (and a cell for each in every row), it still has after [add_task],
    after [remove_task] and after [prioritize_tasks]. *)
Theorem mutations_preserve_schema (st : state) (d p d' : string) :
  has_schema (tasks st) ->
  has_schema (tasks (state_of (add_task clf d p st)))
  /\ has_schema (tasks (state_of (remove_task d' st)))
  /\ has_schema (tasks (state_of (prioritize_tasks st))).
Proof.
  intros H. split; [|split].
  - rewrite add_task_tasks, (concat_schema _ d p H). split; [reflexivity|].
    cbn [rows]. apply (Forall_range_index (fun r => List.length r = 2)).
    apply Forall_app. split; [|repeat constructor].
    destruct H as [_ Hr]. unfold values. apply Forall_map. exact Hr.
  - destruct H as [Hc Hr]. rewrite remove_task_tasks, Hc. cbn.
    split; [reflexivity|]. cbn [rows].
    apply Forall_forall. intros r Hin. apply filter_In in Hin.
    rewrite Forall_forall in Hr. apply Hr, Hin.
  - rewrite prioritize_tasks_tasks.
    destruct (sort_values (tasks st) "priority") as [df|] eqn:E; [|exact H].
    destruct (sort_values_spec _ _ _ E) as (Hc' & Hp & _).
    destruct H as [Hc Hr]. split; [congruence|].
    eapply Permutation_Forall; eassumption.
Qed.

End Methods.

(** ** Sorting, the menu, start-up and recommendation *)

Lemma sorted_precedes {A : Type} (R : A -> A -> Prop) (l1 l2 l3 : list A) (a b : A) :
  StronglySorted R (l1 ++ a :: l2 ++ b :: l3) -> R a b.
Proof.
  induction l1 as [|x l1 IH]; simpl; intros H.
  - apply StronglySorted_inv in H. destruct H as [_ H].
    rewrite Forall_forall in H. apply H. apply in_or_app. right. left. reflexivity.
  - apply StronglySorted_inv in H. apply IH, H.
Qed.

Lemma print_all_trace (l : list string) (st : state) :
  trace (print_all l st) = trace st ++ map EvPrint l
  /\ tasks (print_all l st) = tasks st
  /\ model (print_all l st) = model st
  /\ disk (print_all l st) = disk st
  /\ draws (print_all l st) = draws st.
Proof.
  unfold print_all. revert st. induction l as [|s l IH]; intros st; simpl.
  - rewrite app_nil_r. repeat split.
  - destruct (IH (print s st)) as (H1 & H2 & H3 & H4 & H5).
    rewrite H1, H2, H3, H4, H5. simpl. rewrite <- app_assoc. repeat split.
Qed.

(** ** What a run of the menu writes *)

Lemma extends_refl (st : state) : extends st st.
Proof. exists []. rewrite app_nil_r. reflexivity. Qed.

Lemma extends_trans (a b c : state) : extends a b -> extends b c -> extends a c.
Proof.
  intros [e1 H1] [e2 H2]. exists (e1 ++ e2). rewrite H2, H1, app_assoc. reflexivity.
Qed.

Lemma extends_eq (st st' : state) : trace st' = trace st -> extends st st'.
Proof. intros H. exists []. rewrite app_nil_r. exact H. Qed.

Lemma log_extends (e : event) (st : state) : extends st (log e st).
Proof. exists [e]. reflexivity. Qed.

Lemma shown_extends (st : state) : extends st (shown st).
Proof.
  unfold shown, prompt. eapply extends_trans; [|apply log_extends].
  exists (map EvPrint banner). apply print_all_trace.
Qed.

Lemma shown_frame (st : state) :
  tasks (shown st) = tasks st /\ model (shown st) = model st
  /\ disk (shown st) = disk st /\ draws (shown st) = draws st
  /\ trace (shown st) = trace st ++ map EvPrint banner ++ [EvPrompt "Select an option: "].
Proof.
  destruct (print_all_trace banner st) as (H1 & H2 & H3 & H4 & H5).
  unfold shown, prompt. cbn [log tasks model disk draws trace].
  rewrite H1, <- app_assoc. auto.
Qed.

Lemma train_model_extends (clf : Classifier) (st : state) :
  extends st (state_of (train_model clf st)).
Proof.
  unfold train_model.
  destruct (getitem _ "description"); [|apply extends_eq; reflexivity].
  destruct (getitem _ "priority"); [|apply extends_eq; reflexivity].
  destruct (fit clf _ _); eexists; reflexivity.
Qed.

Lemma add_task_extends (clf : Classifier) (st : state) (d p : string) :
  extends st (state_of (add_task clf d p st)).
Proof.
  unfold add_task. rewrite save_tasks_state. unfold bind.
  eapply extends_trans; [|apply train_model_extends]. eexists. reflexivity.
Qed.

Lemma remove_task_extends (st : state) (d : string) :
  extends st (state_of (remove_task d st)).
Proof.
  unfold remove_task. destruct (getitem _ "description"); [|apply extends_refl].
  eexists. reflexivity.
Qed.

Lemma list_tasks_extends (st : state) : extends st (state_of (list_tasks st)).
Proof. unfold list_tasks. destruct (empty _); eexists; reflexivity. Qed.

Lemma prioritize_tasks_extends (st : state) :
  extends st (state_of (prioritize_tasks st)).
Proof.
  unfold prioritize_tasks. destruct (sort_values _ _); [|apply extends_refl].
  eexists. reflexivity.
Qed.

Lemma recommend_task_extends (clf : Classifier) (rng : nat -> nat) (st : state) :
  extends st (state_of (recommend_task clf rng st)).
Proof.
  unfold recommend_task.
  destruct (empty (tasks st)); [eexists; reflexivity|].
  destruct (getitem (tasks st) "description") as [docs|]; [|apply extends_refl].
  destruct (predict clf (model st) (values docs)) as [e|predictions]; [apply extends_refl|].
  destruct (getitem (tasks st) "priority") as [prio|]; [|apply extends_refl].
  destruct (getitem _ "description") as [candidates|]; [|apply extends_refl].
  destruct (choice _ candidates); destruct candidates;
    first [apply extends_refl | apply extends_eq; reflexivity | eexists; reflexivity].
Qed.

(** The end of the input at the choice prompt, and the exit choice. *)
Lemma main_menu_eof (clf : Classifier) (rng : nat -> nat) (st : state) :
  main_menu clf rng st [] = Raises EOFError (shown st).
Proof. reflexivity. Qed.

Lemma main_menu_exit (clf : Classifier) (rng : nat -> nat) (st : state)
      (rest : list string) :
  main_menu clf rng st ("6" :: rest) = Returns (print "Goodbye!" (shown st)).
Proof. reflexivity. Qed.

Lemma main_menu_extends_within (clf : Classifier) (rng : nat -> nat) (n : nat) :
  forall stdin, List.length stdin <= n ->
  forall st, extends st (state_of (main_menu clf rng st stdin)).
Proof.
  induction n as [|n IH]; intros stdin Hlen st.
  - destruct stdin; [|simpl in Hlen; lia]. rewrite main_menu_eof. apply shown_extends.
  - destruct stdin as [|choice rest]; [rewrite main_menu_eof; apply shown_extends|].
    simpl in Hlen. cbn [main_menu]. fold (shown st).
    apply (extends_trans _ (shown st)); [apply shown_extends|].
    destruct (String.eqb choice "1").
    { eapply extends_trans; [apply log_extends|]. fold prompt.
      destruct rest as [|d rest1]; [apply extends_refl|].
      eapply extends_trans; [apply log_extends|].
      destruct rest1 as [|line rest2]; [apply extends_refl|].
      simpl in Hlen.
      destruct (negb (mem (capitalize line) priorities)).
      - eapply extends_trans; [apply log_extends|]. apply IH. lia.
      - match goal with
        | |- context [add_task clf d ?p ?s] =>
            pose proof (add_task_extends clf s d p) as Hm;
            destruct (add_task clf d p s) as [st1|e st1]
        end; cbn [state_of] in Hm.
        + eapply extends_trans; [exact Hm|].
          eapply extends_trans; [apply log_extends|]. apply IH. lia.
        + exact Hm. }
    destruct (String.eqb choice "2").
    { eapply extends_trans; [apply log_extends|].
      destruct rest as [|d rest1]; [apply extends_refl|]. simpl in Hlen.
      match goal with
      | |- context [remove_task d ?s] =>
          pose proof (remove_task_extends s d) as Hm;
          destruct (remove_task d s) as [st1|e st1]
      end; cbn [state_of] in Hm.
      - eapply extends_trans; [exact Hm|].
        eapply extends_trans; [apply log_extends|]. apply IH. lia.
      - exact Hm. }
    destruct (String.eqb choice "3").
    { pose proof (list_tasks_extends (shown st)) as Hm.
      destruct (list_tasks (shown st)) as [st1|e st1]; cbn [state_of] in Hm.
      - eapply extends_trans; [exact Hm|]. apply IH. lia.
      - exact Hm. }
    destruct (String.eqb choice "4").
    { pose proof (prioritize_tasks_extends (shown st)) as Hm.
      destruct (prioritize_tasks (shown st)) as [st1|e st1]; cbn [state_of] in Hm.
      - eapply extends_trans; [exact Hm|].
        eapply extends_trans; [apply log_extends|]. apply IH. lia.
      - exact Hm. }
    destruct (String.eqb choice "5").
    { pose proof (recommend_task_extends clf rng (shown st)) as Hm.
      destruct (recommend_task clf rng (shown st)) as [st1|e st1]; cbn [state_of] in Hm.
      - eapply extends_trans; [exact Hm|]. apply IH. lia.
      - exact Hm. }
    destruct (String.eqb choice "6").
    { apply log_extends. }
    eapply extends_trans; [apply log_extends|]. apply IH. lia.
Qed.

(** Whatever a run of the menu does, what was written before it is still
    the beginning of what is written after it. *)
Lemma main_menu_extends (clf : Classifier) (rng : nat -> nat) (st : state)
      (stdin : list string) :
  extends st (state_of (main_menu clf rng st stdin)).
Proof. exact (main_menu_extends_within clf rng (List.length stdin) stdin (le_n _) st). Qed.

Section Session.
Variable clf : Classifier.
Variable rng : nat -> nat.

(** C4.  On a table with the two columns, [prioritize_tasks] returns with
    the same rows rearranged so that the priority cells ascend in the
    order of strings (NaN last), and saves that table.  In this order
    High stands before Low and Low before Medium: whenever a row stands
    before another in the result, its priority is at most the other's as
    a string, so no Low row is left before a High row and no Medium row
    before a Low one. *)
Theorem prioritize_tasks_orders_by_priority_string (st : state) :
  has_schema (tasks st) ->
  exists st',
    prioritize_tasks st = Returns st'
    /\ columns (tasks st') = columns (tasks st)
    /\ Permutation (rows (tasks st)) (rows (tasks st'))
    /\ StronglySorted (key_le priority_of) (rows (tasks st'))
    /\ (forall l1 a l2 b l3, rows (tasks st') = l1 ++ a :: l2 ++ b :: l3 ->
          key_leb (priority_of a) (priority_of b) = true)
    /\ key_leb (VStr "High") (VStr "Low") = true
    /\ key_leb (VStr "Low") (VStr "Medium") = true
    /\ key_leb (VStr "Low") (VStr "High") = false
    /\ key_leb (VStr "Medium") (VStr "Low") = false
    /\ disk st' = Some (to_csv (tasks st')).
Proof.
  intros [Hc Hr]. unfold prioritize_tasks.
  destruct (sort_values (tasks st) "priority") as [df|] eqn:E.
  - destruct (sort_values_spec _ _ _ E) as (Hc' & Hp & Hs).
    rewrite Hc in Hs. change (StronglySorted (key_le priority_of) (rows df)) in Hs.
    rewrite save_tasks_state. eexists. split; [reflexivity|]. cbn.
    split; [exact Hc'|]. split; [exact Hp|]. split; [exact Hs|].
    split; [|repeat split].
    intros l1 a l2 b l3 Hrows. rewrite Hrows in Hs.
    exact (sorted_precedes _ _ _ _ _ _ Hs).
  - unfold sort_values in E. rewrite Hc in E. discriminate.
Qed.

(** C8.  In the add flow, when the capitalized priority line is none of
    Low, Medium and High, the menu prints the error message and goes on
    with the next iteration on the remaining input, the table, the model
    and the file being what they were: it shows the menu again and reads the
    next choice, so that the run ends in EOFError at that prompt when the
    input stops there and with Goodbye! when the next line is 6, and for
    every remaining input the error message stays in what the run has
    written. *)
Theorem main_menu_rejects_other_priorities
    (st : state) (d line : string) (rest : list string) :
  mem (capitalize line) priorities = false ->
  exists st',
    main_menu clf rng st ("1" :: d :: line :: rest) = main_menu clf rng st' rest
    /\ tasks st' = tasks st
    /\ model st' = model st
    /\ disk st' = disk st
    /\ trace st'
       = trace st ++ map EvPrint banner
         ++ [EvPrompt "Select an option: ";
             EvPrompt "Enter task description: ";
             EvPrompt "Enter task priority (Low/Medium/High): ";
             EvPrint "Invalid priority! Please enter Low, Medium, or High."]
    /\ draws st' = draws st
    /\ main_menu clf rng st ["1"; d; line] = Raises EOFError (shown st')
    /\ (forall rest', main_menu clf rng st ("1" :: d :: line :: "6" :: rest')
                      = Returns (print "Goodbye!" (shown st')))
    /\ extends st' (state_of (main_menu clf rng st ("1" :: d :: line :: rest))).
Proof.
  intros H.
  set (st' := print "Invalid priority! Please enter Low, Medium, or High."
                (prompt "Enter task priority (Low/Medium/High): "
                   (prompt "Enter task description: " (shown st)))).
  assert (Hrun : forall rest0, main_menu clf rng st ("1" :: d :: line :: rest0)
                               = main_menu clf rng st' rest0).
  { intros rest0. cbn [main_menu]. change (String.eqb "1" "1") with true. cbv iota.
    rewrite H. reflexivity. }
  exists st'. split; [apply Hrun|].
  destruct (shown_frame st) as (H1 & H2 & H3 & H4 & H5).
  subst st'. cbn [print prompt log tasks model disk trace draws].
  rewrite H1, H2, H3, H4, H5. repeat rewrite <- app_assoc.
  split; [reflexivity|]. split; [reflexivity|]. split; [reflexivity|].
  split; [reflexivity|]. split; [reflexivity|].
  split; [rewrite Hrun; apply main_menu_eof|].
  split; [intros rest'; rewrite Hrun; apply main_menu_exit|].
  rewrite Hrun. apply main_menu_extends.
Qed.

(** C5.  With tasks.csv absent, [load_tasks] returns and leaves the empty
    table of the two columns; [__init__] then trains on that table, and
    since fitting on no training data raises, start-up ends in that
    exception. *)
Theorem init_without_file_raises :
  fit clf [] [] = false ->
  load_tasks (fresh None) = Covered (Returns (fresh None))
  /\ tasks (fresh None) = DataFrame_of_columns ["description"; "priority"]
  /\ exists st',
       init clf None = Covered (Raises ValueError st')
       /\ tasks st' = DataFrame_of_columns ["description"; "priority"]
       /\ disk st' = None.
Proof.
  intros H. split; [reflexivity|]. split; [reflexivity|].
  unfold init, load_tasks, fresh, bind, train_model. cbn. rewrite H.
  eexists. split; [reflexivity|]. split; reflexivity.
Qed.

(** C1.  A session in which [recommend_task] raises instead of reporting
    a task: started on a file with the one task (write report, Low),
    after adding (buy milk, Low) and removing write report the table has
    the single row buy milk under index label 1; the prediction for it is
    Low, the tasks of stored priority Low are that one row, and the
    position drawn among them, 0, is looked up as a label, which fails
    with KeyError. *)
Theorem recommend_task_raises_on_relabelled_rows :
  fit clf [VStr "write report"] [VStr "Low"] = true ->
  fit clf [VStr "write report"; VStr "buy milk"] [VStr "Low"; VStr "Low"] = true ->
  predict_one clf [VStr "write report"; VStr "buy milk"] [VStr "Low"; VStr "Low"]
    "buy milk" = "Low" ->
  exists st,
    session clf = Covered (Returns st)
    /\ tasks st = {| columns := task_columns;
                     rows := [(1, [VStr "buy milk"; VStr "Low"])] |}
    /\ empty (tasks st) = false
    /\ exists st', recommend_task clf rng st = Raises KeyError st'.
Proof.
  intros F1 F2 P.
  unfold session, init, load_tasks, fresh. cbn [disk].
  change (read_csv one_low_task)
    with (Covered {| columns := task_columns;
                     rows := [(0, [VStr "write report"; VStr "Low"])] |}).
  unfold bind at 3. unfold train_model at 1. cbn. rewrite F1.
  unfold add_task, train_model. cbn. rewrite F2. cbn.
  eexists. split; [reflexivity|]. split; [reflexivity|]. split; [reflexivity|].
  unfold recommend_task. cbn. rewrite P. cbn. eexists. reflexivity.
Qed.

End Session.

(** ** Saving and loading *)

Lemma parse_render (v : value) : present_text v -> parse_field (render v) = v.
Proof.
  intros (s & -> & Hs & _ & _). unfold parse_field. simpl. rewrite Hs. reflexivity.
Qed.

Lemma parse_render_row (r : list value) :
  Forall present_text r -> map parse_field (map render r) = r.
Proof.
  induction 1 as [|v r Hv _ IH]; simpl; [reflexivity|].
  rewrite (parse_render v Hv), IH. reflexivity.
Qed.












(** A description with a carriage return is outside what the embedding
    reads back: [to_csv] leaves the character bare and the parser takes it
    for the end of a record. *)
Example carriage_return_not_covered :
  has_schema broken_line /\ read_csv (to_csv broken_line) = Uncovered.
Proof. split; [split; [reflexivity|repeat constructor]|reflexivity]. Qed.

(** True and false in any letter case are not kept as text, nor is
    anything that is written with the characters of numbers alone. *)
Example fields_not_kept_as_text :
  map is_bool ["true"; "tRue"; "FALSE"; "truth"; ""] = [true; true; true; false; false]
  /\ map text_field ["tRue"; "12"; "1e5"; "tea"; "buy tea"; "Low"]
     = [false; false; false; false; true; true].
Proof. split; reflexivity. Qed.

(** ** What [recommend_task] does when it returns *)

Lemma series_getitem_In (s : Series) (k : nat) (v : value) :
  series_getitem s k = Some v -> In (k, v) s.
Proof.
  induction s as [|[l w] s IH]; simpl; [discriminate|].
  destruct (Nat.eqb l k) eqn:E.
  - apply Nat.eqb_eq in E. intros H. injection H as <-. left. congruence.
  - intros H. right. apply IH, H.
Qed.

(** On the empty table the message is printed and nothing else happens. *)
Lemma recommend_task_empty (clf : Classifier) (rng : nat -> nat) (st : state) :
  empty (tasks st) = true ->
  recommend_task clf rng st
  = Returns (print "No tasks available for recommendations." st).
Proof. unfold recommend_task. intros ->. reflexivity. Qed.

(** X16.  When [recommend_task] returns on a table that is not empty, it has
    printed the description of a row whose stored priority equals the label
    predicted for the first row, together with that label, and the row is
    the one whose index label is the number drawn. *)
Lemma recommend_task_returns (clf : Classifier) (rng : nat -> nat) (st st' : state) :
  empty (tasks st) = false ->
  recommend_task clf rng st = Returns st' ->
  exists docs predictions r,
    getitem (tasks st) "description" = Some docs
    /\ predict clf (model st) (values docs) = inr predictions
    /\ In r (rows (tasks st))
    /\ py_eq (cell (columns (tasks st)) (snd r) "priority") (nth 0 predictions "") = true
    /\ trace st'
       = trace st ++ [EvPrint ("Recommended task: "
                               ++ py_str (cell (columns (tasks st)) (snd r) "description")
                               ++ " - Priority: " ++ nth 0 predictions "")].
Proof.
  intros He. unfold recommend_task. rewrite He.
  destruct (getitem (tasks st) "description") as [docs|] eqn:Ed; [|discriminate].
  destruct (predict clf (model st) (values docs)) as [e|predictions] eqn:Ep; [discriminate|].
  destruct (getitem (tasks st) "priority") as [prio|] eqn:Epr; [|discriminate].
  pose proof (mask_eq_filter _ _ (nth 0 predictions "") _ Epr) as Hrows.
  destruct (getitem (getitem_mask (tasks st) (series_eq prio (nth 0 predictions "")))
              "description") as [candidates|] eqn:Ec; [|discriminate].
  pose proof (getitem_cell _ _ _ Ec) as Hcand. rewrite Hrows in Hcand.
  cbn [getitem_mask columns] in Hcand.
  unfold choice. destruct candidates as [|c0 cs] eqn:Ecs; [discriminate|].
  rewrite <- Ecs in *.
  destruct (series_getitem candidates _) as [v|] eqn:Eg; [|discriminate].
  intros H. injection H as <-.
  apply series_getitem_In in Eg. rewrite Hcand in Eg.
  apply in_map_iff in Eg. destruct Eg as (r & Hr & Hin).
  apply filter_In in Hin. destruct Hin as [Hin Hp].
  injection Hr as _ <-.
  exists docs, predictions, r. repeat split; assumption || reflexivity.
Qed.

(** ** The properties at sample inputs *)

Lemma two_tasks_schema : has_schema two_tasks.
Proof. split; [reflexivity|]. repeat constructor. Qed.

Lemma three_tasks_schema : has_schema three_tasks.
Proof. split; [reflexivity|]. repeat constructor. Qed.

Lemma remove_task_deletes_matching_rows_witness :
  has_schema (tasks (at_rest two_tasks))
  /\ exists st',
       remove_task "buy milk" (at_rest two_tasks) = Returns st'
       /\ rows (tasks st') = [(0, [VStr "write report"; VStr "High"])].
Proof.
  split; [exact two_tasks_schema|].
  destruct (remove_task_deletes_matching_rows (at_rest two_tasks) "buy milk" two_tasks_schema)
    as (st' & Hret & _ & Hrows & _).
  exists st'. split; [exact Hret|]. rewrite Hrows. reflexivity.
Defined.

(** The comparison is exact: another spelling removes nothing. *)
Example remove_task_case_sensitive :
  tasks (state_of (remove_task "Buy milk" (at_rest two_tasks))) = two_tasks.
Proof. reflexivity. Qed.

Lemma add_task_appends_one_row_witness :
  has_schema (tasks (at_rest two_tasks))
  /\ values (rows (tasks (state_of (add_task first_label "email team" "Medium"
                                      (at_rest two_tasks)))))
     = [[VStr "write report"; VStr "High"]; [VStr "buy milk"; VStr "Low"];
        [VStr "email team"; VStr "Medium"]].
Proof.
  split; [exact two_tasks_schema|].
  exact (proj1 (proj2 (add_task_appends_one_row first_label (at_rest two_tasks)
                         "email team" "Medium" two_tasks_schema))).
Defined.

Lemma remove_task_idempotent_witness :
  Forall (fun r => cell (columns two_tasks) (snd r) "description" <> VStr "feed cat")
    (rows two_tasks)
  /\ tasks (state_of (remove_task "feed cat" (at_rest two_tasks))) = two_tasks.
Proof.
  assert (H : Forall (fun r => cell (columns two_tasks) (snd r) "description"
                               <> VStr "feed cat") (rows two_tasks)).
  { repeat constructor; discriminate. }
  split; [exact H|].
  exact (proj2 (remove_task_idempotent (at_rest two_tasks) "feed cat") H).
Defined.

Lemma mutations_preserve_schema_witness :
  has_schema (tasks (at_rest two_tasks))
  /\ has_schema (tasks (state_of (add_task first_label "email team" "Medium"
                                    (at_rest two_tasks))))
  /\ has_schema (tasks (state_of (remove_task "buy milk" (at_rest two_tasks))))
  /\ has_schema (tasks (state_of (prioritize_tasks (at_rest two_tasks)))).
Proof.
  split; [exact two_tasks_schema|].
  exact (mutations_preserve_schema first_label (at_rest two_tasks)
           "email team" "Medium" "buy milk" two_tasks_schema).
Defined.

Lemma prioritize_tasks_orders_by_priority_string_witness :
  has_schema (tasks (at_rest three_tasks))
  /\ exists st',
       prioritize_tasks (at_rest three_tasks) = Returns st'
       /\ StronglySorted (key_le priority_of) (rows (tasks st')).
Proof.
  split; [exact three_tasks_schema|].
  destruct (prioritize_tasks_orders_by_priority_string (at_rest three_tasks) three_tasks_schema)
    as (st' & Hret & _ & _ & Hsorted & _).
  exists st'. split; [exact Hret | exact Hsorted].
Defined.

(** The example of the specification: High, then Low, then Medium. *)
Example prioritize_three_tasks :
  rows (tasks (state_of (prioritize_tasks (at_rest three_tasks))))
  = [(0, [VStr "write report"; VStr "High"]);
     (2, [VStr "buy milk"; VStr "Low"]);
     (1, [VStr "email team"; VStr "Medium"])].
Proof. reflexivity. Qed.

Lemma main_menu_rejects_other_priorities_witness :
  mem (capitalize "urgent") priorities = false
  /\ exists st',
       tasks st' = two_tasks
       /\ main_menu first_label zeros (at_rest two_tasks) ["1"; "feed cat"; "urgent"; "6"]
          = Returns (print "Goodbye!" (shown st')).
Proof.
  split; [reflexivity|].
  destruct (main_menu_rejects_other_priorities first_label zeros (at_rest two_tasks)
              "feed cat" "urgent" ["6"] eq_refl)
    as (st' & _ & Htasks & _ & _ & _ & _ & _ & Hexit & _).
  exists st'. split; [exact Htasks | exact (Hexit [])].
Defined.

(** Lower-case and upper-case spellings of the three priorities pass. *)
Example capitalize_accepts :
  map (fun s => mem (capitalize s) priorities) ["low"; "MEDIUM"; "hIGH"; "Lo"; ""]
  = [true; true; true; false; false].
Proof. reflexivity. Qed.

Lemma init_without_file_raises_witness :
  fit first_label [] [] = false
  /\ exists st', init first_label None = Covered (Raises ValueError st').
Proof.
  split; [reflexivity|].
  destruct (init_without_file_raises first_label eq_refl) as (_ & _ & st' & Hinit & _).
  exists st'. exact Hinit.
Defined.

Lemma recommend_task_raises_on_relabelled_rows_witness :
  exists st,
    session first_label = Covered (Returns st)
    /\ exists st', recommend_task first_label zeros st = Raises KeyError st'.
Proof.
  destruct (recommend_task_raises_on_relabelled_rows first_label zeros
              eq_refl eq_refl eq_refl) as (st & Hrun & _ & _ & Hraise).
  exists st. split; [exact Hrun | exact Hraise].
Defined.

(** * Further properties of the methods *)

(** ** Helpers *)

Lemma train_model_disk (clf : Classifier) (st : state) :
  disk (state_of (train_model clf st)) = disk st.
Proof.
  unfold train_model. simpl.
  destruct (getitem (tasks st) "description"); [|reflexivity].
  destruct (getitem (tasks st) "priority"); [|reflexivity].
  destruct (fit clf _ _); reflexivity.
Qed.

Lemma range_index_from {A : Type} (a : nat) (l : list A) (x : A) :
  combine (seq a (List.length (l ++ [x]))) (l ++ [x])
  = combine (seq a (List.length l)) l ++ [(a + List.length l, x)].
Proof.
  revert a. induction l as [|y l IH]; intros a; simpl.
  - rewrite Nat.add_0_r. reflexivity.
  - rewrite IH. rewrite Nat.add_succ_r. reflexivity.
Qed.

Lemma range_index_app {A : Type} (l : list A) (x : A) :
  range_index (l ++ [x]) = range_index l ++ [(List.length l, x)].
Proof. unfold range_index. exact (range_index_from 0 l x). Qed.

Lemma labels_range_index {A : Type} (l : list A) :
  map fst (range_index l) = seq 0 (List.length l).
Proof.
  unfold range_index. generalize 0. induction l as [|x l IH]; intros a; simpl.
  - reflexivity.
  - rewrite IH. reflexivity.
Qed.

Lemma NoDup_map_filter {A B : Type} (f : A -> B) (g : A -> bool) (l : list A) :
  NoDup (map f l) -> NoDup (map f (filter g l)).
Proof.
  induction l as [|x l IH]; simpl; intros H; [constructor|].
  inversion H as [|? ? Hx Hl]; subst.
  destruct (g x); simpl; [|apply IH, Hl].
  constructor; [|apply IH, Hl].
  intros Hin. apply Hx. apply in_map_iff in Hin. destruct Hin as (y & Hy & Hin).
  apply filter_In in Hin. apply in_map_iff. exists y. tauto.
Qed.

(** What [add_task] does, in full. *)
Lemma add_task_outcome (clf : Classifier) (st : state) (d p : string) :
  has_schema (tasks st) ->
  let df := next_table st d p in
  let st1 := log (EvFit (descriptions df) (stored_priorities df))
               (set_model Unfitted
                  (log (EvSave (to_csv df)) (set_disk (to_csv df) (set_tasks df st)))) in
  add_task clf d p st
  = if fit clf (descriptions df) (stored_priorities df)
    then Returns (set_model (Fitted (descriptions df) (stored_priorities df)) st1)
    else Raises ValueError st1.
Proof.
  intros H. cbv zeta. unfold add_task, next_table. rewrite save_tasks_state.
  unfold bind, train_model. cbn [tasks set_model log set_disk set_tasks].
  assert (Hc : columns (concat_ignore_index (tasks st) (DataFrame_of_task d p))
               = ["description"; "priority"]).
  { rewrite (concat_schema _ d p H). reflexivity. }
  rewrite (schema_getitem_description _ Hc), (schema_getitem_priority _ Hc).
  unfold values, descriptions, stored_priorities. rewrite !map_map. cbn [snd].
  reflexivity.
Qed.

(** The candidates of [recommend_task] on a table with the two columns. *)
Lemma recommend_task_schema (clf : Classifier) (rng : nat -> nat) (st : state)
      (predictions : list string) :
  has_schema (tasks st) ->
  rows (tasks st) <> [] ->
  predict clf (model st) (descriptions (tasks st)) = inr predictions ->
  let first := nth 0 predictions "" in
  let candidates :=
    map (fun r => (fst r, description_of r))
      (filter (fun r => py_eq (priority_of r) first) (rows (tasks st))) in
  recommend_task clf rng st
  = match choice (randbelow rng st (List.length candidates)) candidates with
    | inl e => Raises e (match candidates with [] => st | _ :: _ => next_draw st end)
    | inr v => Returns (print ("Recommended task: " ++ py_str v
                               ++ " - Priority: " ++ first)
                          (match candidates with [] => st | _ :: _ => next_draw st end))
    end.
Proof.
  intros [Hc Hr] Hne Hp. cbv zeta.
  assert (He : empty (tasks st) = false).
  { unfold empty. rewrite Hc. destruct (rows (tasks st)); [congruence|reflexivity]. }
  unfold recommend_task. rewrite He.
  rewrite (schema_getitem_description _ Hc).
  replace (values (map (fun r => (fst r, description_of r)) (rows (tasks st))))
    with (descriptions (tasks st))
    by (unfold values, descriptions; rewrite map_map; reflexivity).
  rewrite Hp. rewrite (schema_getitem_priority _ Hc).
  pose proof (mask_eq_filter _ _ (nth 0 predictions "") _ (schema_getitem_priority _ Hc))
    as Hrows.
  rewrite Hc in Hrows. cbn [cell get_loc String.eqb option_map] in Hrows.
  assert (Hcols : columns (getitem_mask (tasks st)
                    (series_eq (map (fun r => (fst r, priority_of r)) (rows (tasks st)))
                       (nth 0 predictions ""))) = ["description"; "priority"])
    by exact Hc.
  rewrite (schema_getitem_description _ Hcols).
  replace (rows (getitem_mask (tasks st)
             (series_eq (map (fun r => (fst r, priority_of r)) (rows (tasks st)))
                (nth 0 predictions ""))))
    with (filter (fun r => py_eq (priority_of r) (nth 0 predictions "")) (rows (tasks st))).
  destruct (choice _ _); reflexivity.
Qed.

(** ** The file, the index labels, and what reading leaves alone *)

(** X1.  On a table with the two columns, after [add_task], [remove_task]
    or [prioritize_tasks] the file holds the table that is in memory, also
    when the fit inside [add_task] raises. *)
Theorem mutations_leave_file_in_step
    (clf : Classifier) (st : state) (d p d' : string) :
  has_schema (tasks st) ->
  synced (state_of (add_task clf d p st))
  /\ synced (state_of (remove_task d' st))
  /\ synced (state_of (prioritize_tasks st)).
Proof.
  intros [Hc Hr]. unfold synced. split; [|split].
  - unfold add_task. rewrite save_tasks_state. unfold bind.
    rewrite train_model_disk, train_model_tasks. reflexivity.
  - unfold remove_task. rewrite (schema_getitem_description _ Hc). reflexivity.
  - unfold prioritize_tasks, sort_values. rewrite Hc. reflexivity.
Qed.

Lemma mutations_leave_file_in_step_witness :
  has_schema (tasks (at_rest two_tasks))
  /\ synced (state_of (add_task first_label "email team" "Medium" (at_rest two_tasks))).
Proof.
  split; [exact two_tasks_schema|].
  exact (proj1 (mutations_leave_file_in_step first_label (at_rest two_tasks)
                  "email team" "Medium" "buy milk" two_tasks_schema)).
Defined.

(** X2.  [list_tasks] and [recommend_task] only read: whatever they print
    and however they end, the table, the model and the file are what they
    were; [list_tasks] always returns. *)
Theorem listing_and_recommending_only_read
    (clf : Classifier) (rng : nat -> nat) (st : state) :
  (exists st', list_tasks st = Returns st'
               /\ tasks st' = tasks st /\ model st' = model st /\ disk st' = disk st)
  /\ (let st' := state_of (recommend_task clf rng st) in
      tasks st' = tasks st /\ model st' = model st /\ disk st' = disk st).
Proof.
  split.
  - unfold list_tasks. destruct (empty (tasks st)); eexists; repeat split.
  - cbv zeta. unfold recommend_task.
    destruct (empty (tasks st)); [repeat split|].
    destruct (getitem (tasks st) "description") as [docs|]; [|repeat split].
    destruct (predict clf (model st) (values docs)) as [e|predictions]; [repeat split|].
    destruct (getitem (tasks st) "priority") as [prio|]; [|repeat split].
    destruct (getitem _ "description") as [candidates|]; [|repeat split].
    destruct (choice _ candidates); destruct candidates; repeat split.
Qed.

(** X3.  The index labels stay distinct under the three mutations, and
    after [add_task] they are 0, 1, ... in row order. *)
Theorem mutations_keep_labels_distinct
    (clf : Classifier) (st : state) (d p d' : string) :
  has_schema (tasks st) ->
  NoDup (labels (tasks st)) ->
  labels (tasks (state_of (add_task clf d p st)))
  = seq 0 (S (List.length (rows (tasks st))))
  /\ NoDup (labels (tasks (state_of (add_task clf d p st))))
  /\ NoDup (labels (tasks (state_of (remove_task d' st))))
  /\ NoDup (labels (tasks (state_of (prioritize_tasks st)))).
Proof.
  intros H Hnd.
  assert (Hadd : labels (tasks (state_of (add_task clf d p st)))
                 = seq 0 (S (List.length (rows (tasks st))))).
  { unfold labels. rewrite add_task_tasks, (concat_schema _ d p H). cbn [rows].
    rewrite labels_range_index. unfold values.
    rewrite length_app, length_map, Nat.add_1_r. reflexivity. }
  split; [exact Hadd|]. split; [rewrite Hadd; apply seq_NoDup|].
  destruct H as [Hc Hr]. split.
  - unfold labels. rewrite remove_task_tasks, Hc.
    change (get_loc "description" ["description"; "priority"]) with (Some 0).
    cbv iota. cbn [rows]. apply NoDup_map_filter. exact Hnd.
  - unfold labels. rewrite prioritize_tasks_tasks.
    destruct (sort_values (tasks st) "priority") as [df|] eqn:E; [|exact Hnd].
    destruct (sort_values_spec _ _ _ E) as (_ & Hp & _).
    eapply Permutation_NoDup; [|exact Hnd]. apply Permutation_map. exact Hp.
Qed.

Lemma mutations_keep_labels_distinct_witness :
  has_schema (tasks (at_rest two_tasks))
  /\ NoDup (labels (tasks (at_rest two_tasks)))
  /\ labels (tasks (state_of (add_task first_label "email team" "Medium"
                                (at_rest two_tasks)))) = [0; 1; 2].
Proof.
  assert (Hnd : NoDup (labels (tasks (at_rest two_tasks)))).
  { repeat constructor; simpl; intuition discriminate. }
  split; [exact two_tasks_schema|]. split; [exact Hnd|].
  exact (proj1 (mutations_keep_labels_distinct first_label (at_rest two_tasks)
                  "email team" "Medium" "buy milk" two_tasks_schema Hnd)).
Defined.

(** X4.  Adding a task and then removing its description leaves no row with
    that description; when no row had it before, the table is back to the
    earlier rows, cell for cell and in order, under labels counted from 0. *)
Theorem add_then_remove_restores
    (clf : Classifier) (st : state) (d p : string) :
  has_schema (tasks st) ->
  let st' := state_of (remove_task d (state_of (add_task clf d p st))) in
  Forall (fun r => description_of r <> VStr d) (rows (tasks st'))
  /\ (Forall (fun r => description_of r <> VStr d) (rows (tasks st)) ->
      tasks st' = {| columns := columns (tasks st);
                     rows := range_index (values (rows (tasks st))) |}).
Proof.
  intros H. cbv zeta.
  rewrite remove_task_tasks, add_task_tasks, (concat_schema _ d p H).
  cbn [columns rows].
  change (get_loc "description" ["description"; "priority"]) with (Some 0). cbv iota.
  assert (Hf : forall r, py_ne (cell ["description"; "priority"] (snd r) "description") d
                         = negb (value_eqb (description_of r) (VStr d))).
  { intros r. unfold py_ne. rewrite py_eq_value_eqb. reflexivity. }
  rewrite (filter_ext _ _ Hf). split.
  - apply Forall_forall. intros r Hin. apply filter_In in Hin. destruct Hin as [_ Hin].
    rewrite negb_true_iff, <- not_true_iff_false, value_eqb_eq in Hin. exact Hin.
  - intros Hno. destruct H as [Hc Hr]. rewrite Hc. f_equal.
    rewrite range_index_app, filter_app. cbn [filter description_of snd nth value_eqb].
    rewrite String.eqb_refl. cbn [negb]. rewrite app_nil_r.
    apply filter_all.
    apply (Forall_range_index
             (fun c => negb (value_eqb (nth 0 c VNaN) (VStr d)) = true)).
    unfold values. apply Forall_map. eapply Forall_impl; [|exact Hno].
    cbv beta. intros r Hd. unfold description_of in Hd.
    rewrite negb_true_iff, <- not_true_iff_false, value_eqb_eq. exact Hd.
Qed.

Lemma add_then_remove_restores_witness :
  has_schema (tasks (at_rest two_tasks))
  /\ Forall (fun r => description_of r <> VStr "feed cat") (rows (tasks (at_rest two_tasks)))
  /\ tasks (state_of (remove_task "feed cat"
                        (state_of (add_task first_label "feed cat" "Low"
                                     (at_rest two_tasks)))))
     = two_tasks.
Proof.
  assert (Hno : Forall (fun r => description_of r <> VStr "feed cat")
                  (rows (tasks (at_rest two_tasks)))).
  { repeat constructor; discriminate. }
  split; [exact two_tasks_schema|]. split; [exact Hno|].
  exact (proj2 (add_then_remove_restores first_label (at_rest two_tasks)
                  "feed cat" "Low" two_tasks_schema) Hno).
Defined.

(** ** Recommendation *)

Lemma series_getitem_range {A : Type} (g : A -> value) (l : list A) (a k : nat) (d : A) :
  k < List.length l ->
  series_getitem (map (fun r => (fst r, g (snd r))) (combine (seq a (List.length l)) l))
    (a + k)
  = Some (g (nth k l d)).
Proof.
  revert a k. induction l as [|x l IH]; intros a k Hk; simpl in *; [lia|].
  destruct k as [|k].
  - rewrite Nat.add_0_r, Nat.eqb_refl. reflexivity.
  - replace (Nat.eqb a (a + S k)) with false
      by (symmetry; apply Nat.eqb_neq; lia).
    replace (a + S k) with (S a + k) by lia. apply IH. lia.
Qed.

Lemma filter_none {A : Type} (f : A -> bool) (l : list A) :
  Forall (fun x => f x = false) l -> filter f l = [].
Proof.
  induction 1 as [|x l Hx _ IH]; simpl; [reflexivity|].
  rewrite Hx. exact IH.
Qed.

(** X5.  On a table with the two columns that is not empty, when the label
    predicted for the first row is the stored priority of no row (the
    pipeline may be older than the table, since removal does not retrain),
    [recommend_task] raises IndexError and prints nothing. *)
Theorem recommend_task_without_candidate
    (clf : Classifier) (rng : nat -> nat) (st : state) (predictions : list string) :
  has_schema (tasks st) ->
  rows (tasks st) <> [] ->
  predict clf (model st) (descriptions (tasks st)) = inr predictions ->
  Forall (fun r => py_eq (priority_of r) (nth 0 predictions "") = false) (rows (tasks st)) ->
  recommend_task clf rng st = Raises IndexError st.
Proof.
  intros H Hne Hp Hno.
  rewrite (recommend_task_schema clf rng st predictions H Hne Hp). cbv zeta.
  rewrite (filter_none _ _ Hno). reflexivity.
Qed.

Lemma recommend_task_without_candidate_witness :
  has_schema (tasks stale)
  /\ recommend_task first_label zeros stale = Raises IndexError stale.
Proof.
  assert (Hs : has_schema (tasks stale)).
  { split; [reflexivity|]. repeat constructor. }
  split; [exact Hs|].
  apply (recommend_task_without_candidate first_label zeros stale ["High"] Hs).
  - discriminate.
  - reflexivity.
  - repeat constructor.
Defined.

(** X6.  When the fit inside [add_task] raises, the call ends in that
    exception with the new row in the table and in the file, and with the
    earlier pipeline replaced by the unfitted one: a recommendation asked
    of that state raises NotFittedError. *)
Theorem add_task_failed_fit_loses_model
    (clf : Classifier) (rng : nat -> nat) (st : state) (d p : string) :
  has_schema (tasks st) ->
  fit clf (descriptions (next_table st d p)) (stored_priorities (next_table st d p)) = false ->
  exists st',
    add_task clf d p st = Raises ValueError st'
    /\ tasks st' = next_table st d p
    /\ disk st' = Some (to_csv (next_table st d p))
    /\ model st' = Unfitted
    /\ recommend_task clf rng st' = Raises NotFittedError st'.
Proof.
  intros H Hfit. rewrite (add_task_outcome clf st d p H). cbv zeta. rewrite Hfit.
  eexists. split; [reflexivity|]. cbn [tasks disk model log set_model set_disk set_tasks].
  split; [reflexivity|]. split; [reflexivity|]. split; [reflexivity|].
  unfold recommend_task. cbn [tasks model log set_model set_disk set_tasks].
  unfold next_table. rewrite (concat_schema _ d p H).
  unfold empty. cbn [columns rows].
  rewrite range_index_app.
  destruct (range_index (values (rows (tasks st))) ++ _) eqn:E;
    [destruct (range_index (values (rows (tasks st)))); discriminate|].
  reflexivity.
Qed.

Lemma add_task_failed_fit_loses_model_witness :
  has_schema (tasks (trained blank_loaded))
  /\ exists st',
       add_task text_only "buy milk" "Low" (trained blank_loaded) = Raises ValueError st'
       /\ model st' = Unfitted.
Proof.
  assert (Hs : has_schema (tasks (trained blank_loaded))).
  { split; [reflexivity|]. repeat constructor. }
  split; [exact Hs|].
  destruct (add_task_failed_fit_loses_model text_only zeros (trained blank_loaded)
              "buy milk" "Low" Hs eq_refl) as (st' & Hadd & _ & _ & Hm & _).
  exists st'. split; [exact Hadd | exact Hm].
Defined.

(** X7.  On a table with the two columns whose index labels are the row
    positions and whose rows all carry the predicted priority,
    [recommend_task] returns and reports the description of the row at the
    position drawn, with the predicted label: each row is reported for
    exactly one value of the draw. *)
Theorem recommend_task_on_positions
    (clf : Classifier) (rng : nat -> nat) (st : state)
    (cells : list (list value)) (predictions : list string) :
  has_schema (tasks st) ->
  rows (tasks st) = range_index cells ->
  cells <> [] ->
  predict clf (model st) (descriptions (tasks st)) = inr predictions ->
  Forall (fun c => py_eq (nth 1 c VNaN) (nth 0 predictions "") = true) cells ->
  recommend_task clf rng st
  = Returns (print ("Recommended task: "
                    ++ py_str (nth 0 (nth (Nat.modulo (rng (draws st)) (List.length cells))
                                        cells []) VNaN)
                    ++ " - Priority: " ++ nth 0 predictions "")
               (next_draw st)).
Proof.
  intros H Hrows Hne Hp Hall.
  assert (Hne' : rows (tasks st) <> []).
  { rewrite Hrows. destruct cells; [congruence|discriminate]. }
  rewrite (recommend_task_schema clf rng st predictions H Hne' Hp). cbv zeta.
  rewrite Hrows. rewrite filter_all.
  2:{ apply (Forall_range_index
               (fun c => py_eq (nth 1 c VNaN) (nth 0 predictions "") = true)).
      exact Hall. }
  rewrite length_map.
  assert (Hlen : List.length (range_index cells) = List.length cells).
  { rewrite <- (length_map fst), labels_range_index, length_seq. reflexivity. }
  rewrite Hlen. unfold randbelow.
  assert (Hk : Nat.modulo (rng (draws st)) (List.length cells) < List.length cells).
  { apply Nat.mod_upper_bound. destruct cells; [congruence|discriminate]. }
  unfold choice.
  pose proof (series_getitem_range (fun c => nth 0 c VNaN) cells 0 _ [] Hk) as Hget.
  cbn [Nat.add] in Hget.
  change (map (fun r : nat * list value => (fst r, description_of r)) (range_index cells))
    with (map (fun r : nat * list value => (fst r, nth 0 (snd r) VNaN))
            (combine (seq 0 (List.length cells)) cells)).
  rewrite Hget.
  destruct cells as [|c cs]; [congruence|]. reflexivity.
Qed.

Lemma recommend_task_on_positions_witness :
  has_schema (tasks (trained two_low_tasks))
  /\ recommend_task first_label (fun _ => 5) (trained two_low_tasks)
     = Returns (print "Recommended task: buy milk - Priority: Low"
                  (next_draw (trained two_low_tasks))).
Proof.
  assert (Hs : has_schema (tasks (trained two_low_tasks))).
  { split; [reflexivity|]. repeat constructor. }
  split; [exact Hs|].
  apply (recommend_task_on_positions first_label (fun _ => 5) (trained two_low_tasks)
           [[VStr "write report"; VStr "Low"]; [VStr "buy milk"; VStr "Low"]]
           ["Low"; "Low"] Hs).
  - reflexivity.
  - discriminate.
  - reflexivity.
  - repeat constructor.
Defined.

Lemma recommend_task_returns_witness :
  empty (tasks (trained two_tasks)) = false
  /\ exists r,
       In r (rows two_tasks)
       /\ py_eq (cell (columns two_tasks) (snd r) "priority") "High" = true
       /\ trace (state_of (recommend_task first_label zeros (trained two_tasks)))
          = [EvPrint ("Recommended task: "
                      ++ py_str (cell (columns two_tasks) (snd r) "description")
                      ++ " - Priority: High")].
Proof.
  split; [reflexivity|].
  destruct (recommend_task_returns first_label zeros (trained two_tasks)
              (state_of (recommend_task first_label zeros (trained two_tasks)))
              eq_refl eq_refl)
    as (docs & predictions & r & Hd & Hp & Hin & Hpr & Htr).
  injection Hd as <-. injection Hp as <-.
  exists r. split; [exact Hin|]. split; [exact Hpr | exact Htr].
Defined.

(** ** The menu *)

Lemma upper_lower_L (c : ascii) :
  Ascii.eqb (upper_char c) "L" = Ascii.eqb (lower_char c) "l".
Proof. destruct c as [[] [] [] [] [] [] [] []]; reflexivity. Qed.

Lemma upper_lower_M (c : ascii) :
  Ascii.eqb (upper_char c) "M" = Ascii.eqb (lower_char c) "m".
Proof. destruct c as [[] [] [] [] [] [] [] []]; reflexivity. Qed.

Lemma upper_lower_H (c : ascii) :
  Ascii.eqb (upper_char c) "H" = Ascii.eqb (lower_char c) "h".
Proof. destruct c as [[] [] [] [] [] [] [] []]; reflexivity. Qed.

Lemma string_eqb_cons (a b : ascii) (s t : string) :
  String.eqb (String a s) (String b t) = Ascii.eqb a b && String.eqb s t.
Proof. simpl. destruct (Ascii.eqb a b); reflexivity. Qed.

(** X8.  The priority check of the add flow does not depend on letter
    case: a line is accepted exactly when its lower-case form is low,
    medium or high. *)
Theorem priority_check_ignores_case (line : string) :
  mem (capitalize line) priorities = mem (lower line) ["low"; "medium"; "high"].
Proof.
  destruct line as [|c s]; [reflexivity|].
  unfold mem, priorities, capitalize. cbn [lower existsb].
  rewrite !string_eqb_cons.
  rewrite upper_lower_L, upper_lower_M, upper_lower_H. reflexivity.
Qed.

Lemma main_menu_returns_within (clf : Classifier) (rng : nat -> nat) (n : nat) :
  forall stdin, List.length stdin <= n ->
  forall st st', main_menu clf rng st stdin = Returns st' ->
  In "6" stdin /\ exists evs, trace st' = evs ++ [EvPrint "Goodbye!"].
Proof.
  induction n as [|n IH]; intros stdin Hlen st st' Hrun.
  - destruct stdin; [discriminate Hrun|simpl in Hlen; lia].
  - destruct stdin as [|choice rest]; [discriminate Hrun|].
    simpl in Hlen. cbn [main_menu] in Hrun.
    destruct (String.eqb choice "1").
    { destruct rest as [|d rest1]; [discriminate Hrun|].
      destruct rest1 as [|line rest2]; [discriminate Hrun|].
      simpl in Hlen.
      destruct (negb (mem (capitalize line) priorities)).
      - apply IH in Hrun; [|lia]. destruct Hrun as [Hin Hev].
        split; [right; right; right; exact Hin | exact Hev].
      - destruct (add_task clf d (capitalize line) _); [|discriminate Hrun].
        apply IH in Hrun; [|lia]. destruct Hrun as [Hin Hev].
        split; [right; right; right; exact Hin | exact Hev]. }
    destruct (String.eqb choice "2").
    { destruct rest as [|d rest1]; [discriminate Hrun|]. simpl in Hlen.
      destruct (remove_task d _); [|discriminate Hrun].
      apply IH in Hrun; [|lia]. destruct Hrun as [Hin Hev].
      split; [right; right; exact Hin | exact Hev]. }
    destruct (String.eqb choice "3").
    { destruct (list_tasks _); [|discriminate Hrun].
      apply IH in Hrun; [|lia]. destruct Hrun as [Hin Hev].
      split; [right; exact Hin | exact Hev]. }
    destruct (String.eqb choice "4").
    { destruct (prioritize_tasks _); [|discriminate Hrun].
      apply IH in Hrun; [|lia]. destruct Hrun as [Hin Hev].
      split; [right; exact Hin | exact Hev]. }
    destruct (String.eqb choice "5").
    { destruct (recommend_task clf rng _); [|discriminate Hrun].
      apply IH in Hrun; [|lia]. destruct Hrun as [Hin Hev].
      split; [right; exact Hin | exact Hev]. }
    destruct (String.eqb choice "6") eqn:E6.
    { apply String.eqb_eq in E6. subst choice. injection Hrun as <-.
      split; [left; reflexivity|]. eexists. reflexivity. }
    apply IH in Hrun; [|lia]. destruct Hrun as [Hin Hev].
    split; [right; exact Hin | exact Hev].
Qed.

Lemma main_menu_harmless (clf : Classifier) (rng : nat -> nat) (st : state)
      (l : string) (rest : list string) :
  harmless l ->
  exists st1,
    main_menu clf rng st (l :: rest) = main_menu clf rng st1 rest
    /\ tasks st1 = tasks st /\ model st1 = model st /\ disk st1 = disk st.
Proof.
  destruct (shown_frame st) as (H1 & H2 & H3 & _).
  intros [-> | Hno].
  - cbn [main_menu]. change (String.eqb "3" "1") with false.
    change (String.eqb "3" "2") with false. change (String.eqb "3" "3") with true.
    cbv iota. fold (shown st). unfold list_tasks.
    destruct (empty (tasks (shown st))); eexists; (split; [reflexivity|]);
      cbn [print log tasks model disk]; auto.
  - assert (Hne : forall k, In k ["1"; "2"; "3"; "4"; "5"; "6"] -> String.eqb l k = false).
    { intros k Hk. apply String.eqb_neq. intros ->. exact (Hno Hk). }
    cbn [main_menu].
    rewrite (Hne "1"), (Hne "2"), (Hne "3"), (Hne "4"), (Hne "5"), (Hne "6")
      by (simpl; tauto).
    fold (shown st). eexists. split; [reflexivity|].
    cbn [print log tasks model disk]. auto.
Qed.

Lemma main_menu_input_runs_out (clf : Classifier) (rng : nat -> nat)
      (stdin tail : list string) (d : string) :
  Forall harmless stdin ->
  In tail [[]; ["1"]; ["1"; d]; ["2"]] ->
  forall st, exists st',
    main_menu clf rng st (stdin ++ tail) = Raises EOFError st'
    /\ tasks st' = tasks st /\ model st' = model st /\ disk st' = disk st.
Proof.
  intros Hh Htail. induction Hh as [|l stdin Hl _ IH]; intros st.
  - destruct (shown_frame st) as (H1 & H2 & H3 & _).
    simpl in Htail. destruct Htail as [<- | [<- | [<- | [<- | []]]]];
      (eexists; split; [reflexivity|]);
      cbn [prompt log tasks model disk]; auto.
  - destruct (main_menu_harmless clf rng st l (stdin ++ tail) Hl)
      as (st1 & Hrun & H1 & H2 & H3).
    destruct (IH st1) as (st' & Hend & H1' & H2' & H3').
    exists st'. simpl app. rewrite Hrun. split; [exact Hend|].
    split; [congruence|]. split; congruence.
Qed.

(** X9.  [main_menu] returns only through the exit choice: when a run on
    some input returns, the line 6 was among the input and the last thing
    written is Goodbye!; a run on input without the line 6 ends in an
    exception; and when the input runs out at one of the four reads (the
    choice, the description to add, the priority, the description to
    remove) after lines that only list or are no choice, the exception is
    EOFError and the table, the model and the file are what they were. *)
Theorem main_menu_returns_through_exit
    (clf : Classifier) (rng : nat -> nat) (st : state) (stdin : list string) :
  (forall st', main_menu clf rng st stdin = Returns st' ->
     In "6" stdin /\ exists evs, trace st' = evs ++ [EvPrint "Goodbye!"])
  /\ (~ In "6" stdin -> exists e st', main_menu clf rng st stdin = Raises e st')
  /\ (forall tail d,
        Forall harmless stdin ->
        In tail [[]; ["1"]; ["1"; d]; ["2"]] ->
        exists st',
          main_menu clf rng st (stdin ++ tail) = Raises EOFError st'
          /\ tasks st' = tasks st /\ model st' = model st /\ disk st' = disk st).
Proof.
  assert (Hret : forall st', main_menu clf rng st stdin = Returns st' ->
            In "6" stdin /\ exists evs, trace st' = evs ++ [EvPrint "Goodbye!"]).
  { intros st' H.
    exact (main_menu_returns_within clf rng (List.length stdin) stdin (le_n _) st st' H). }
  split; [exact Hret|]. split.
  - intros Hno. destruct (main_menu clf rng st stdin) as [st'|e st'] eqn:E.
    + exfalso. apply Hno. exact (proj1 (Hret st' eq_refl)).
    + exists e, st'. reflexivity.
  - intros tail d Hh Htail. exact (main_menu_input_runs_out clf rng stdin tail d Hh Htail st).
Qed.

Lemma main_menu_returns_through_exit_witness :
  Forall harmless ["3"; "list"]
  /\ exists st',
       main_menu first_label zeros (at_rest two_tasks) (["3"; "list"] ++ ["1"; "feed cat"])
       = Raises EOFError st'
       /\ tasks st' = two_tasks.
Proof.
  assert (Hh : Forall harmless ["3"; "list"]).
  { constructor; [left; reflexivity|]. constructor; [|constructor].
    right. simpl. intuition discriminate. }
  split; [exact Hh|].
  destruct (proj2 (proj2 (main_menu_returns_through_exit first_label zeros
                            (at_rest two_tasks) ["3"; "list"]))
              ["1"; "feed cat"] "feed cat" Hh
              (or_intror (or_intror (or_introl eq_refl))))
    as (st' & Hrun & Htasks & _).
  exists st'. split; [exact Hrun | exact Htasks].
Defined.

(** X10.  The remove flow of the menu reports success whether or not a
    row matched: on a table with the two columns it removes, saves, prints
    Task removed successfully. and goes on with the remaining input from
    that state (the model untouched, the file holding the new table); when
    no row has the description the table is what it was.  Going on means:
    the menu is shown again and the next choice read, so the run ends in
    EOFError at that prompt when the input stops there and with Goodbye!
    when the next line is 6, and for every remaining input the success line
    stays in what the run has written. *)
Theorem main_menu_remove_always_reports_success
    (clf : Classifier) (rng : nat -> nat) (st : state) (d : string) (rest : list string) :
  has_schema (tasks st) ->
  exists st',
    main_menu clf rng st ("2" :: d :: rest) = main_menu clf rng st' rest
    /\ tasks st' = tasks (state_of (remove_task d st))
    /\ trace st'
       = trace st ++ map EvPrint banner
         ++ [EvPrompt "Select an option: ";
             EvPrompt "Enter task description to remove: ";
             EvSave (to_csv (tasks st'));
             EvPrint "Task removed successfully."]
    /\ (Forall (fun r => description_of r <> VStr d) (rows (tasks st)) ->
        tasks st' = tasks st)
    /\ model st' = model st
    /\ disk st' = Some (to_csv (tasks st'))
    /\ draws st' = draws st
    /\ main_menu clf rng st ["2"; d] = Raises EOFError (shown st')
    /\ (forall rest', main_menu clf rng st ("2" :: d :: "6" :: rest')
                      = Returns (print "Goodbye!" (shown st')))
    /\ extends st' (state_of (main_menu clf rng st ("2" :: d :: rest))).
Proof.
  intros [Hc Hr].
  destruct (shown_frame st) as (H1 & H2 & H3 & H4 & H5).
  set (df := getitem_mask (tasks st)
               (series_ne (map (fun r => (fst r, description_of r)) (rows (tasks st))) d)).
  set (st' := print "Task removed successfully."
                (log (EvSave (to_csv df))
                   (set_disk (to_csv df)
                      (set_tasks df (prompt "Enter task description to remove: "
                                       (shown st)))))).
  assert (Hrun : forall rest0, main_menu clf rng st ("2" :: d :: rest0)
                               = main_menu clf rng st' rest0).
  { intros rest0. cbn [main_menu].
    change (String.eqb "2" "1") with false. change (String.eqb "2" "2") with true.
    cbv iota. fold (shown st). unfold remove_task. cbn [prompt log tasks].
    rewrite H1, (schema_getitem_description _ Hc). rewrite save_tasks_state.
    reflexivity. }
  assert (Ht : tasks (state_of (remove_task d st)) = df).
  { unfold remove_task. rewrite (schema_getitem_description _ Hc). reflexivity. }
  exists st'. split; [apply Hrun|]. rewrite Ht.
  subst st'. cbn [print prompt log set_disk set_tasks tasks model disk trace draws].
  rewrite H2, H4, H5. repeat rewrite <- app_assoc.
  split; [reflexivity|]. split; [reflexivity|]. split.
  { intros Hno.
    pose proof (mask_ne_filter _ _ d _ (schema_getitem_description _ Hc)) as Hrows.
    rewrite filter_all in Hrows.
    - subst df. unfold getitem_mask in *. cbn [rows] in Hrows. rewrite Hrows.
      destruct (tasks st); reflexivity.
    - eapply Forall_impl; [|exact Hno]. cbv beta. intros r Hd.
      rewrite (schema_description _ _ Hc). unfold py_ne.
      rewrite py_eq_value_eqb, negb_true_iff, <- not_true_iff_false, value_eqb_eq.
      exact Hd. }
  split; [reflexivity|]. split; [reflexivity|]. split; [reflexivity|].
  split; [rewrite Hrun; apply main_menu_eof|].
  split; [intros rest'; rewrite Hrun; apply main_menu_exit|].
  rewrite Hrun. apply main_menu_extends.
Qed.

Lemma main_menu_remove_always_reports_success_witness :
  has_schema (tasks (at_rest two_tasks))
  /\ exists st',
       tasks st' = two_tasks
       /\ main_menu first_label zeros (at_rest two_tasks) ["2"; "feed cat"; "6"]
          = Returns (print "Goodbye!" (shown st')).
Proof.
  split; [exact two_tasks_schema|].
  destruct (main_menu_remove_always_reports_success first_label zeros (at_rest two_tasks)
              "feed cat" ["6"] two_tasks_schema)
    as (st' & _ & _ & _ & Hsame & _ & _ & _ & _ & Hexit & _).
  exists st'. split; [|exact (Hexit [])].
  apply Hsame. repeat constructor; discriminate.
Defined.

(** X11.  In the add flow with an accepted priority line, the task is
    stored with the description as typed and the priority in its
    capitalized spelling.  When the fit succeeds the menu prints Task added
    successfully. and goes on; when it raises, the menu ends in that
    exception with the new row already in the table and in the file. *)
Theorem main_menu_add_stores_capitalized
    (clf : Classifier) (rng : nat -> nat) (st : state) (d line : string)
    (rest : list string) :
  has_schema (tasks st) ->
  mem (capitalize line) priorities = true ->
  let df := next_table st d (capitalize line) in
  values (rows df) = values (rows (tasks st)) ++ [[VStr d; VStr (capitalize line)]]
  /\ if fit clf (descriptions df) (stored_priorities df)
     then exists st',
            main_menu clf rng st ("1" :: d :: line :: rest) = main_menu clf rng st' rest
            /\ tasks st' = df
            /\ disk st' = Some (to_csv df)
            /\ model st' = Fitted (descriptions df) (stored_priorities df)
            /\ exists evs, trace st' = evs ++ [EvPrint "Task added successfully."]
     else exists st',
            main_menu clf rng st ("1" :: d :: line :: rest) = Raises ValueError st'
            /\ tasks st' = df
            /\ disk st' = Some (to_csv df).
Proof.
  intros H Hmem. cbv zeta. split.
  { unfold next_table. rewrite (concat_schema _ _ _ H). cbn [rows].
    apply values_range_index. }
  destruct (print_all_trace banner st) as (_ & H2 & _).
  set (st2 := prompt "Enter task priority (Low/Medium/High): "
                (prompt "Enter task description: "
                   (prompt "Select an option: " (print_all banner st)))).
  assert (Ht : tasks st2 = tasks st) by exact H2.
  assert (Hs2 : has_schema (tasks st2)) by (rewrite Ht; exact H).
  assert (Hrun : main_menu clf rng st ("1" :: d :: line :: rest)
                 = match add_task clf d (capitalize line) st2 with
                   | Returns st' => main_menu clf rng (print "Task added successfully." st') rest
                   | Raises e st' => Raises e st'
                   end).
  { cbn [main_menu]. change (String.eqb "1" "1") with true. cbv iota.
    rewrite Hmem. reflexivity. }
  rewrite Hrun, (add_task_outcome clf st2 d (capitalize line) Hs2). cbv zeta.
  replace (next_table st2 d (capitalize line)) with (next_table st d (capitalize line))
    by (unfold next_table; rewrite Ht; reflexivity).
  destruct (fit clf _ _).
  - eexists. split; [reflexivity|]. cbn. repeat split. eexists. reflexivity.
  - eexists. split; [reflexivity|]. cbn. repeat split.
Qed.

Lemma main_menu_add_stores_capitalized_witness :
  has_schema (tasks (at_rest two_tasks))
  /\ mem (capitalize "mEDIUM") priorities = true
  /\ values (rows (next_table (at_rest two_tasks) "email team" (capitalize "mEDIUM")))
     = [[VStr "write report"; VStr "High"]; [VStr "buy milk"; VStr "Low"];
        [VStr "email team"; VStr "Medium"]].
Proof.
  split; [exact two_tasks_schema|]. split; [reflexivity|].
  exact (proj1 (main_menu_add_stores_capitalized first_label zeros (at_rest two_tasks)
                  "email team" "mEDIUM" ["6"] two_tasks_schema eq_refl)).
Defined.

(** ** Saving, loading and starting again *)








(** X14.  Loading does not check the columns: on a file that parses but
    has no description column, [load_tasks] takes the table as it is and
    [__init__] fails afterwards, in [train_model], with KeyError. *)
Theorem init_on_file_without_description
    (clf : Classifier) (f : csv_file) (df : DataFrame) :
  read_csv f = Covered df ->
  get_loc "description" (columns df) = None ->
  load_tasks (fresh (Some f)) = Covered (Returns (set_tasks df (fresh (Some f))))
  /\ init clf (Some f)
     = Covered (Raises KeyError (set_model Unfitted (set_tasks df (fresh (Some f))))).
Proof.
  intros Hread Hloc. unfold init, load_tasks. cbn [fresh disk]. rewrite Hread.
  split; [reflexivity|]. unfold bind, train_model, getitem.
  cbn [tasks set_tasks set_model]. rewrite Hloc. reflexivity.
Qed.

Lemma init_on_file_without_description_witness :
  exists df,
    read_csv foreign_file = Covered df
    /\ init first_label (Some foreign_file)
       = Covered (Raises KeyError (set_model Unfitted (set_tasks df (fresh (Some foreign_file))))).
Proof.
  eexists. split; [reflexivity|].
  exact (proj2 (init_on_file_without_description first_label foreign_file _ eq_refl eq_refl)).
Defined.

(** X15.  A choice line that is none of 1 to 6, compared as typed, makes
    the menu print Invalid option and go on with the remaining input; the
    table, the model and the file are what they were.  Going on means: the
    menu is shown again and the next choice read, so the run ends in
    EOFError at that prompt when the input stops there and with Goodbye!
    when the next line is 6, and for every remaining input the message
    stays in what the run has written. *)
Theorem main_menu_rejects_other_choices
    (clf : Classifier) (rng : nat -> nat) (st : state) (choice : string)
    (rest : list string) :
  ~ In choice ["1"; "2"; "3"; "4"; "5"; "6"] ->
  exists st',
    main_menu clf rng st (choice :: rest) = main_menu clf rng st' rest
    /\ tasks st' = tasks st
    /\ model st' = model st
    /\ disk st' = disk st
    /\ trace st'
       = trace st ++ map EvPrint banner
         ++ [EvPrompt "Select an option: ";
             EvPrint "Invalid option. Please select a valid option."]
    /\ draws st' = draws st
    /\ main_menu clf rng st [choice] = Raises EOFError (shown st')
    /\ (forall rest', main_menu clf rng st (choice :: "6" :: rest')
                      = Returns (print "Goodbye!" (shown st')))
    /\ extends st' (state_of (main_menu clf rng st (choice :: rest))).
Proof.
  intros Hno.
  assert (Hne : forall k, In k ["1"; "2"; "3"; "4"; "5"; "6"] -> String.eqb choice k = false).
  { intros k Hk. apply String.eqb_neq. intros ->. exact (Hno Hk). }
  set (st' := print "Invalid option. Please select a valid option." (shown st)).
  assert (Hrun : forall rest0, main_menu clf rng st (choice :: rest0)
                               = main_menu clf rng st' rest0).
  { intros rest0. cbn [main_menu].
    rewrite (Hne "1"), (Hne "2"), (Hne "3"), (Hne "4"), (Hne "5"), (Hne "6")
      by (simpl; tauto).
    reflexivity. }
  exists st'. split; [apply Hrun|].
  destruct (shown_frame st) as (H1 & H2 & H3 & H4 & H5).
  subst st'. cbn [print log tasks model disk trace draws].
  rewrite H1, H2, H3, H4, H5. repeat rewrite <- app_assoc.
  split; [reflexivity|]. split; [reflexivity|]. split; [reflexivity|].
  split; [reflexivity|]. split; [reflexivity|].
  split; [rewrite Hrun; apply main_menu_eof|].
  split; [intros rest'; rewrite Hrun; apply main_menu_exit|].
  rewrite Hrun. apply main_menu_extends.
Qed.

Lemma main_menu_rejects_other_choices_witness :
  ~ In " 1" ["1"; "2"; "3"; "4"; "5"; "6"]
  /\ exists st',
       tasks st' = two_tasks
       /\ main_menu first_label zeros (at_rest two_tasks) [" 1"; "6"]
          = Returns (print "Goodbye!" (shown st')).
Proof.
  assert (Hno : ~ In " 1" ["1"; "2"; "3"; "4"; "5"; "6"]).
  { simpl. intuition discriminate. }
  split; [exact Hno|].
  destruct (main_menu_rejects_other_choices first_label zeros (at_rest two_tasks)
              " 1" ["6"] Hno) as (st' & _ & Htasks & _ & _ & _ & _ & _ & Hexit & _).
  exists st'. split; [exact Htasks | exact (Hexit [])].
Defined.
